(** * Log reports: a shallow embedding of [main.py]

    The program reads line-delimited JSON access logs, accumulates
    per-endpoint statistics ([parse_logs]) and renders one of two reports
    ([AverageResponseTimeReport], [UserAgentReport]).

    The development is organised as the program is:
    - [Py]: the fragment of the Python runtime the program relies on
      (JSON values, exceptions, numbers, [dict] and [defaultdict]);
    - [Library]: the interface of the library calls ([json.loads],
      [datetime.fromisoformat], [datetime.strptime], [open]);
    - [Program]: the classes and functions of [main.py];
    - [Sample]: an executable instance of the library interface;
    - the reference notions and scenarios the properties speak about;
    - the properties of the program, claim by claim. *)

From Stdlib Require Import ZArith List String Ascii Bool Lia.
From Stdlib Require Import Floats.SpecFloat.
Import ListNotations.

Local Open Scope string_scope.
Local Open Scope list_scope.
Local Open Scope Z_scope.

(* ================================================================= *)
(** * The Python runtime fragment *)

Module Py.

(** ** Values

    What [json.loads] can return.  [VNone] is Python's [None] (JSON
    [null]); a [dict] keeps its items in insertion order. *)

#[warnings="-register-all"]
Inductive value : Type :=
| VNone
| VBool (b : bool)
| VInt (n : Z)
| VFloat (f : spec_float)
| VStr (s : string)
| VList (l : list value)
| VDict (d : list (string * value)).

(** ** Exceptions and fallible computations *)

Inductive exn : Type :=
| JSONDecodeError (msg doc : string) (pos : nat)
| OSError (filename : string)
| TypeError
| ValueError
| AttributeError
| KeyError
| OverflowError
| ZeroDivisionError
| NotImplementedError.

Inductive result (A : Type) : Type :=
| Ok (a : A)
| Raise (e : exn).

Arguments Ok {A} a.
Arguments Raise {A} e.

Definition bind {A B} (c : result A) (k : A -> result B) : result B :=
  match c with
  | Ok a => k a
  | Raise e => Raise e
  end.

Notation "x <- c ;; k" := (bind c (fun x => k))
  (at level 61, c at next level, right associativity).
Notation "' p <- c ;; k" := (bind c (fun x => match x with p => k end))
  (at level 61, p pattern, c at next level, right associativity).

Definition returns {A} (c : result A) : bool :=
  match c with Ok _ => true | Raise _ => false end.

(** A [for] loop whose body may raise: the loop state is threaded through
    the iterations and an exception aborts the loop. *)
Fixpoint for_each {S A} (body : S -> A -> result S) (s : S) (l : list A)
  : result S :=
  match l with
  | [] => Ok s
  | x :: l' => s' <- body s x ;; for_each body s' l'
  end.

(** ** Numbers

    Python integers are unbounded; floats are IEEE 754 binary64, here the
    [spec_float] operations at precision 53. *)

Definition prec : Z := 53.
Definition emax : Z := 1024.

Inductive num : Type :=
| NInt (n : Z)
| NFloat (f : spec_float).

Definition is_inf (f : spec_float) : bool :=
  match f with S754_infinity _ => true | _ => false end.

(** [float(n)]: round to nearest even; an integer beyond the float range
    raises [OverflowError]. *)
Definition float_of_int (n : Z) : result spec_float :=
  let f := binary_normalize prec emax n 0 false in
  if is_inf f then Raise OverflowError else Ok f.

(** The quotient [a / b] of two integers ([b > 0]) rounded once to the
    nearest float: the quotient is computed with guard bits and a sticky
    bit, then normalised. *)
Definition round_quotient (a b : Z) : spec_float :=
  let s := Z.max 0 (Z.log2 b + 56 - Z.log2 (Z.abs a)) in
  let n := Z.abs a * 2 ^ s in
  let sticky := if n mod b =? 0 then 0 else 1 in
  let m := 2 * (n / b) + sticky in
  binary_normalize prec emax (Z.sgn a * m) (- s - 1) false.

(** [a / b] on integers (true division): the exact quotient rounded
    once; a zero takes the sign of the divisor. *)
Definition int_truediv (a b : Z) : result spec_float :=
  if b =? 0 then Raise ZeroDivisionError
  else if a =? 0 then Ok (S754_zero (b <? 0))
  else
    let f := round_quotient (Z.sgn b * a) (Z.abs b) in
    if is_inf f then Raise OverflowError else Ok f.

(** [a + b] on numbers. *)
Definition num_add (a b : num) : result num :=
  match a, b with
  | NInt x, NInt y => Ok (NInt (x + y))
  | NInt x, NFloat g => f <- float_of_int x ;; Ok (NFloat (SFadd prec emax f g))
  | NFloat f, NInt y => g <- float_of_int y ;; Ok (NFloat (SFadd prec emax f g))
  | NFloat f, NFloat g => Ok (NFloat (SFadd prec emax f g))
  end.

(** The numeric reading of a value, when it has one ([bool] is a subclass
    of [int]). *)
Definition as_num (v : value) : option num :=
  match v with
  | VBool b => Some (NInt (Z.b2z b))
  | VInt n => Some (NInt n)
  | VFloat f => Some (NFloat f)
  | _ => None
  end.

(** [a + v] where [a] is a number and [v] any value. *)
Definition py_add (a : num) (v : value) : result num :=
  match as_num v with
  | Some b => num_add a b
  | None => Raise TypeError
  end.

(** [a / n] where [a] is a number and [n] an integer. *)
Definition py_truediv (a : num) (n : Z) : result num :=
  match a with
  | NInt x => f <- int_truediv x n ;; Ok (NFloat f)
  | NFloat f =>
      g <- float_of_int n ;;
      if n =? 0 then Raise ZeroDivisionError
      else Ok (NFloat (SFdiv prec emax f g))
  end.

(** ** Truth value, hashing and equality of keys *)

Definition is_zero (f : spec_float) : bool :=
  match f with S754_zero _ => true | _ => false end.

Definition truthy (v : value) : bool :=
  match v with
  | VNone => false
  | VBool b => b
  | VInt n => negb (n =? 0)
  | VFloat f => negb (is_zero f)
  | VStr s => negb (s =? EmptyString)%string
  | VList l => match l with [] => false | _ => true end
  | VDict d => match d with [] => false | _ => true end
  end.

Definition is_none (v : value) : bool :=
  match v with VNone => true | _ => false end.

(** Lists and dicts are unhashable. *)
Definition hashable (v : value) : bool :=
  match v with
  | VList _ | VDict _ => false
  | _ => true
  end.

(** An integer equals a float when they denote the same number. *)
Definition float_eq_int (f : spec_float) (n : Z) : bool :=
  match f with
  | S754_zero _ => n =? 0
  | S754_finite s m e =>
      let v := cond_Zopp s (Zpos m) in
      if 0 <=? e then n =? v * 2 ^ e else n * 2 ^ (- e) =? v
  | _ => false
  end.

Definition is_nan (f : spec_float) : bool :=
  match f with S754_nan => true | _ => false end.

(** Two numbers name the same dictionary key when they are equal as
    numbers ([1], [1.0] and [True] are one key); the decoder hands out a
    single NaN object, found again by identity. *)
Definition num_key_eqb (a b : num) : bool :=
  match a, b with
  | NInt x, NInt y => x =? y
  | NInt x, NFloat g => float_eq_int g x
  | NFloat f, NInt y => float_eq_int f y
  | NFloat f, NFloat g => SFeqb f g || (is_nan f && is_nan g)
  end.

(** Equality of hashable keys. *)
Definition key_eqb (a b : value) : bool :=
  match a, b with
  | VNone, VNone => true
  | VStr s, VStr t => (s =? t)%string
  | _, _ =>
      match as_num a, as_num b with
      | Some x, Some y => num_key_eqb x y
      | _, _ => false
      end
  end.

(** ** Operations on a decoded value *)

Fixpoint dict_get (k : string) (d : list (string * value)) : option value :=
  match d with
  | [] => None
  | (k', v) :: d' => if (k' =? k)%string then Some v else dict_get k d'
  end.

Fixpoint is_substring (p s : string) : bool :=
  prefix p s ||
  match s with
  | EmptyString => false
  | String _ s' => is_substring p s'
  end.

Definition str_eqb (k : string) (v : value) : bool :=
  match v with VStr s => (s =? k)%string | _ => false end.

(** [k in v], for a string [k]. *)
Definition py_contains (k : string) (v : value) : result bool :=
  match v with
  | VDict d => Ok (match dict_get k d with Some _ => true | None => false end)
  | VList l => Ok (existsb (str_eqb k) l)
  | VStr s => Ok (is_substring k s)
  | _ => Raise TypeError
  end.

(** [v[k]], for a string [k]. *)
Definition py_getitem (v : value) (k : string) : result value :=
  match v with
  | VDict d => match dict_get k d with Some x => Ok x | None => Raise KeyError end
  | _ => Raise TypeError
  end.

(** [v.get(k, default)]: only a dict has the method. *)
Definition py_get (v : value) (k : string) (default : value) : result value :=
  match v with
  | VDict d => Ok (match dict_get k d with Some x => x | None => default end)
  | _ => Raise AttributeError
  end.

(** ** [defaultdict]

    An insertion-ordered mapping from hashable values; reading a missing
    key stores the default under it. *)

Section DefaultDict.
Context {V : Type}.
Variable default_factory : V.

Fixpoint dd_find (k : value) (d : list (value * V)) : option V :=
  match d with
  | [] => None
  | (k', v) :: d' => if key_eqb k' k then Some v else dd_find k d'
  end.

(** [d[k]] *)
Definition dd_getitem (d : list (value * V)) (k : value)
  : result (V * list (value * V)) :=
  if hashable k then
    match dd_find k d with
    | Some v => Ok (v, d)
    | None => Ok (default_factory, d ++ [(k, default_factory)])
    end
  else Raise TypeError.

(** [d[k] = v] for a key that is present: the slot keeps its place
    and its first key. *)
Fixpoint dd_replace (k : value) (v : V) (d : list (value * V))
  : list (value * V) :=
  match d with
  | [] => []
  | (k', v') :: d' =>
      if key_eqb k' k then (k', v) :: d' else (k', v') :: dd_replace k v d'
  end.

(** [d[k] = v] *)
Definition dd_setitem (d : list (value * V)) (k : value) (v : V)
  : list (value * V) :=
  match dd_find k d with
  | Some _ => dd_replace k v d
  | None => d ++ [(k, v)]
  end.
End DefaultDict.

End Py.

Import Py.

(* ================================================================= *)
(** * The library interface *)

Module Library.

(** [datetime.date] and [datetime.datetime] *)

Record date : Type := { year : Z; month : Z; day : Z }.

Record datetime : Type :=
  { dt_date : date;
    hour : Z; minute : Z; second : Z; microsecond : Z;
    utcoffset : option Z }.

Definition date_eqb (a b : date) : bool :=
  (year a =? year b) && (month a =? month b) && (day a =? day b).

(** The outcome of [json.loads] on one text: the decoded value, or the
    message and offset of the [JSONDecodeError].  The resource limits of
    the decoder (nesting depth, length of an integer literal) are left
    out. *)
Inductive decoded : Type :=
| Decoded (v : value)
| Invalid (msg : string) (pos : nat).

(** The library functions the program calls on strings.
    [fromisoformat] and [strptime] answer [None] where Python raises
    [ValueError]. *)
Class t : Type :=
  { json_loads : string -> decoded;
    fromisoformat : string -> option datetime;
    strptime : string -> string -> option datetime }.

(** What [open(path, 'r')] gives when iterated: the lines of the file,
    each with its line end, or nothing when the file cannot be opened
    ([OSError]). *)
Definition filesystem : Type := string -> option (list string).

End Library.

Import Library.

(* ================================================================= *)
(** * The program *)

(** ** class [Report] *)

Module Report.

Record t : Type := { title : string }.

(** The base class leaves [generate] to its subclasses. *)
Definition generate {A B : Type} (self : t) (endpoint_stats : A) : result B :=
  Raise NotImplementedError.

End Report.

(** One entry of the per-endpoint statistics:
    [{'count': ..., 'total_response_time': ...}]. *)
Record stats : Type := { count : Z; total_response_time : num }.

(** ** class [AverageResponseTimeReport] *)

Module AverageResponseTimeReport.

Definition row : Type := (value * Z * num)%type.

(** The body of the loop over [endpoint_stats.items()]. *)
Definition add_row (report_data : list row) (item : value * stats)
  : result (list row) :=
  let '(endpoint, stats) := item in
  average_response_time <-
    (if 0 <? count stats
     then py_truediv (total_response_time stats) (count stats)
     else Ok (NInt 0)) ;;
  Ok (report_data ++ [(endpoint, count stats, average_response_time)]).

Definition generate (self : Report.t) (endpoint_stats : list (value * stats))
  : result (list row * string) :=
  report_data <- for_each add_row [] endpoint_stats ;;
  Ok (report_data, Report.title self).

End AverageResponseTimeReport.

(** ** class [UserAgentReport] *)

Module UserAgentReport.

Definition row : Type := (value * Z)%type.

(** The body of the loop over [logs]. *)
Definition count_agent (user_agent_stats : list (value * Z)) (log_entry : value)
  : result (list (value * Z)) :=
  user_agent <- py_get log_entry "http_user_agent" (VStr "Unknown") ;;
  '(n, user_agent_stats) <- dd_getitem 0 user_agent_stats user_agent ;;
  Ok (dd_setitem user_agent_stats user_agent (n + 1)).

Definition generate (self : Report.t) (logs : list value)
  : result (list row * string) :=
  user_agent_stats <- for_each count_agent [] logs ;;
  let report_data := map (fun '(ua, count) => (ua, count)) user_agent_stats in
  Ok (report_data, Report.title self).

End UserAgentReport.

(** ** [parse_logs] and [main] *)

Section Program.
Context {lib : Library.t}.

(** [json.loads(line)] *)
Definition loads (line : string) : result value :=
  match json_loads line with
  | Decoded v => Ok v
  | Invalid msg pos => Raise (JSONDecodeError msg line pos)
  end.

(** [datetime.fromisoformat(v)]: the argument must be a [str]. *)
Definition datetime_fromisoformat (v : value) : result datetime :=
  match v with
  | VStr s =>
      match fromisoformat s with
      | Some dt => Ok dt
      | None => Raise ValueError
      end
  | _ => Raise TypeError
  end.

(** The value a fresh key of [endpoint_stats] receives. *)
Definition new_stats : stats := {| count := 0; total_response_time := NInt 0 |}.

(** [datetime.fromisoformat(log_entry['@timestamp']).date()
     if '@timestamp' in log_entry else None] *)
Definition log_date_of (log_entry : value) : result (option date) :=
  has_timestamp <- py_contains "@timestamp" log_entry ;;
  if has_timestamp : bool then
    timestamp <- py_getitem log_entry "@timestamp" ;;
    dt <- datetime_fromisoformat timestamp ;;
    Ok (Some (dt_date dt))
  else Ok None.

(** [report_date and log_date != report_date] *)
Definition skipped (report_date log_date : option date) : bool :=
  match report_date with
  | None => false
  | Some d =>
      match log_date with
      | None => true
      | Some d' => negb (date_eqb d' d)
      end
  end.

(** The two augmented assignments on [endpoint_stats[endpoint]]. *)
Definition contribute (endpoint_stats : list (value * stats))
    (endpoint response_time : value) : result (list (value * stats)) :=
  '(entry, endpoint_stats) <- dd_getitem new_stats endpoint_stats endpoint ;;
  let endpoint_stats :=
    dd_setitem endpoint_stats endpoint
      {| count := count entry + 1;
         total_response_time := total_response_time entry |} in
  '(entry, endpoint_stats) <- dd_getitem new_stats endpoint_stats endpoint ;;
  total <- py_add (total_response_time entry) response_time ;;
  Ok (dd_setitem endpoint_stats endpoint
        {| count := count entry; total_response_time := total |}).

(** The body of the loop over the lines of a file. *)
Definition process_line (report_date : option date)
    (state : list (value * stats) * list value) (line : string)
  : result (list (value * stats) * list value) :=
  let '(endpoint_stats, logs) := state in
  log_entry <- loads line ;;
  let logs := logs ++ [log_entry] in
  log_date <- log_date_of log_entry ;;
  if skipped report_date log_date then Ok (endpoint_stats, logs)
  else
    endpoint <- py_get log_entry "url" VNone ;;
    response_time <- py_get log_entry "response_time" VNone ;;
    if truthy endpoint && negb (is_none response_time) then
      endpoint_stats <- contribute endpoint_stats endpoint response_time ;;
      Ok (endpoint_stats, logs)
    else Ok (endpoint_stats, logs).

(** The body of the loop over [file_paths]. *)
Definition process_file (fs : filesystem) (report_date : option date)
    (state : list (value * stats) * list value) (file_path : string)
  : result (list (value * stats) * list value) :=
  match fs file_path with
  | None => Raise (OSError file_path)
  | Some lines => for_each (process_line report_date) state lines
  end.

Definition parse_logs (fs : filesystem) (file_paths : list string)
    (report_date : option date)
  : result (list (value * stats) * list value) :=
  for_each (process_file fs report_date) ([], []) file_paths.

(** *** [main]

    The command line as [argparse] hands it over, and what the run
    prints.  A table is printed through [tabulate]; its arguments are
    kept. *)

Record args : Type :=
  { files : list string; report : string; date_arg : option string }.

Inductive table : Type :=
| AverageTable (report_data : list AverageResponseTimeReport.row)
| UserAgentTable (report_data : list UserAgentReport.row).

Inductive printed : Type :=
| Line (s : string)
| Tabulate (data : table) (headers : list string).

(** A run of [main]: the lines printed so far and how the run ends. *)
Definition run (A : Type) : Type := (list printed * result A)%type.

Definition run_bind {A B} (c : run A) (k : A -> run B) : run B :=
  match c with
  | (out, Ok a) => let '(out', r) := k a in (out ++ out', r)
  | (out, Raise e) => (out, Raise e)
  end.

Definition lift {A} (c : result A) : run A := ([], c).
Definition print (p : printed) : run unit := ([p], Ok tt).

Inductive report_object : Type :=
| Average (self : Report.t)
| UserAgent (self : Report.t).

(** The [if]/[elif]/[else] on [args.report]. *)
Definition select_report (kind : string) : option report_object :=
  if (kind =? "average")%string then
    Some (Average {| Report.title := "Average Response Time Report" |})
  else if (kind =? "user-agent")%string then
    Some (UserAgent {| Report.title := "User Agent Report" |})
  else None.

Definition unsupported_message : string :=
  "Currently, only 'average' and 'user-agent' report types are supported.".

(** ["=" * n] *)
Fixpoint underline (n : nat) : string :=
  match n with
  | O => EmptyString
  | S n' => String "=" (underline n')
  end.

(** [report.generate(...)] followed by the printing of the report. *)
Definition render (r : report_object) (endpoint_stats : list (value * stats))
    (logs : list value) : run unit :=
  match r with
  | Average self =>
      run_bind (lift (AverageResponseTimeReport.generate self endpoint_stats))
        (fun '(report_data, title) =>
      run_bind (print (Line title)) (fun _ =>
      run_bind (print (Line (underline (String.length title)))) (fun _ =>
      print (Tabulate (AverageTable report_data)
               ["Endpoint"; "Request Count"; "Average Response Time"]))))
  | UserAgent self =>
      run_bind (lift (UserAgentReport.generate self logs))
        (fun '(report_data, title) =>
      run_bind (print (Line title)) (fun _ =>
      run_bind (print (Line (underline (String.length title)))) (fun _ =>
      print (Tabulate (UserAgentTable report_data) ["User-Agent"; "Count"]))))
  end.

(** The report dispatch: everything [main] does once the logs are
    parsed. *)
Definition dispatch (kind : string) (endpoint_stats : list (value * stats))
    (logs : list value) : run unit :=
  match select_report kind with
  | Some r => render r endpoint_stats logs
  | None => print (Line unsupported_message)
  end.

(** [datetime.strptime(args.date, '%Y-%m-%d').date() if args.date else None] *)
Definition report_date_of (a : args) : result (option date) :=
  match date_arg a with
  | None => Ok None
  | Some s =>
      if (s =? EmptyString)%string then Ok None
      else
        match strptime s "%Y-%m-%d" with
        | Some dt => Ok (Some (dt_date dt))
        | None => Raise ValueError
        end
  end.

Definition main (fs : filesystem) (a : args) : run unit :=
  run_bind (lift (report_date_of a)) (fun report_date =>
  run_bind (lift (parse_logs fs (files a) report_date))
    (fun '(endpoint_stats, logs) =>
  dispatch (report a) endpoint_stats logs)).

End Program.

(* ================================================================= *)
(** * An executable instance of the library

    A decoder for JSON texts after CPython's [json] scanner (messages and
    offsets as in versions 3.8 to 3.12), and parsers for the calendar
    forms the log format uses.  The properties below hold for every
    instance of [Library.t]; this one runs the examples. *)

Module Sample.

Definition chars : Type := list ascii.

(** *** Lexical helpers *)

Definition is_ws (c : ascii) : bool :=
  (c =? " ")%char || (c =? "009")%char || (c =? "010")%char || (c =? "013")%char.

Fixpoint skip_ws (s : chars) (pos : nat) : chars * nat :=
  match s with
  | c :: s' => if is_ws c then skip_ws s' (S pos) else (s, pos)
  | [] => (s, pos)
  end.

Fixpoint strip_prefix (p s : chars) : option chars :=
  match p, s with
  | [], _ => Some s
  | a :: p', b :: s' => if (a =? b)%char then strip_prefix p' s' else None
  | _ :: _, [] => None
  end.

Definition is_digit (c : ascii) : bool :=
  let n := nat_of_ascii c in (48 <=? n)%nat && (n <=? 57)%nat.

Definition digit_val (c : ascii) : Z := Z.of_nat (nat_of_ascii c) - 48.

Fixpoint take_digits (s : chars) : chars * chars :=
  match s with
  | c :: s' =>
      if is_digit c then let '(ds, r) := take_digits s' in (c :: ds, r)
      else ([], s)
  | [] => ([], [])
  end.

Definition digits_val (ds : chars) : Z :=
  fold_left (fun acc c => 10 * acc + digit_val c) ds 0.

Definition len (s : chars) : nat := List.length s.

(** Texts are written with an apostrophe standing for the double
    quote: [quoted "{'url': '/a'}"]. *)
Definition quoted (s : string) : string :=
  string_of_list_ascii
    (map (fun c => if (c =? "'")%char then "034"%char else c)
       (list_ascii_of_string s)).

(** *** Numbers *)

(** [float] of the decimal [(-1)^neg * d * 10^e]: one rounding to the
    nearest float. *)
Definition float_of_decimal (neg : bool) (d e : Z) : spec_float :=
  if d =? 0 then S754_zero neg
  else if 0 <=? e then binary_normalize prec emax (cond_Zopp neg (d * 10 ^ e)) 0 false
  else round_quotient (cond_Zopp neg d) (10 ^ (- e)).

(** [0] or a digit string without leading zero. *)
Definition scan_int_part (s : chars) : option (chars * chars) :=
  match s with
  | c :: s' =>
      if (c =? "0")%char then Some ([c], s')
      else if is_digit c then let '(ds, r) := take_digits s' in Some (c :: ds, r)
      else None
  | [] => None
  end.

(** An optional fraction: the digits after the point. *)
Definition scan_frac (s : chars) : chars * chars :=
  match s with
  | c :: s' =>
      if (c =? ".")%char then
        match take_digits s' with
        | ([], _) => ([], s)
        | (ds, r) => (ds, r)
        end
      else ([], s)
  | [] => ([], s)
  end.

(** An optional exponent. *)
Definition scan_exp (s : chars) : option Z * chars :=
  match s with
  | c :: s' =>
      if (c =? "e")%char || (c =? "E")%char then
        let '(neg, s'') :=
          match s' with
          | d :: t => if (d =? "-")%char then (true, t)
                      else if (d =? "+")%char then (false, t) else (false, s')
          | [] => (false, s')
          end in
        match take_digits s'' with
        | ([], _) => (None, s)
        | (ds, r) => (Some (cond_Zopp neg (digits_val ds)), r)
        end
      else (None, s)
  | [] => (None, s)
  end.

(** A number at the head of [s]: its value and the rest of the text. *)
Definition scan_number (s : chars) : option (value * chars) :=
  let '(neg, s1) :=
    match s with
    | c :: s' => if (c =? "-")%char then (true, s') else (false, s)
    | [] => (false, s)
    end in
  match scan_int_part s1 with
  | None => None
  | Some (ds, s2) =>
      let '(fs, s3) := scan_frac s2 in
      let '(ex, s4) := scan_exp s3 in
      match fs, ex with
      | [], None => Some (VInt (cond_Zopp neg (digits_val ds)), s4)
      | _, _ =>
          let e := match ex with Some e => e | None => 0 end in
          Some (VFloat (float_of_decimal neg (digits_val (ds ++ fs))
                          (e - Z.of_nat (len fs))), s4)
      end
  end.

(** *** Strings *)

Definition hex_val (c : ascii) : option Z :=
  let n := Z.of_nat (nat_of_ascii c) in
  if (48 <=? n) && (n <=? 57) then Some (n - 48)
  else if (65 <=? n) && (n <=? 70) then Some (n - 55)
  else if (97 <=? n) && (n <=? 102) then Some (n - 87)
  else None.

(** Four hexadecimal digits. *)
Definition scan_hex4 (s : chars) : option (Z * chars) :=
  match s with
  | a :: b :: c :: d :: r =>
      match hex_val a, hex_val b, hex_val c, hex_val d with
      | Some x, Some y, Some z, Some w => Some (((x * 16 + y) * 16 + z) * 16 + w, r)
      | _, _, _, _ => None
      end
  | _ => None
  end.

Definition byte (n : Z) : ascii := ascii_of_nat (Z.to_nat n).

(** The UTF-8 bytes of a code point. *)
Definition utf8 (cp : Z) : chars :=
  if cp <? 128 then [byte cp]
  else if cp <? 2048 then [byte (192 + cp / 64); byte (128 + cp mod 64)]
  else if cp <? 65536 then
    [byte (224 + cp / 4096); byte (128 + (cp / 64) mod 64); byte (128 + cp mod 64)]
  else
    [byte (240 + cp / 262144); byte (128 + (cp / 4096) mod 64);
     byte (128 + (cp / 64) mod 64); byte (128 + cp mod 64)].

Definition simple_escape (c : ascii) : option ascii :=
  if (c =? "034")%char then Some "034"%char
  else if (c =? "\")%char then Some "\"%char
  else if (c =? "/")%char then Some "/"%char
  else if (c =? "b")%char then Some "008"%char
  else if (c =? "f")%char then Some "012"%char
  else if (c =? "n")%char then Some "010"%char
  else if (c =? "r")%char then Some "013"%char
  else if (c =? "t")%char then Some "009"%char
  else None.

Inductive scanned (A : Type) : Type :=
| Scanned (a : A) (rest : chars) (pos : nat)
| Stop (pos : nat)
| Fail (msg : string) (pos : nat).

Arguments Scanned {A} a rest pos.
Arguments Stop {A} pos.
Arguments Fail {A} msg pos.

(** A [\uXXXX] escape, [s] standing after the [u]: the code point, with
    a following low surrogate merged into a high one. *)
Definition scan_unicode (s : chars) : option (Z * chars) :=
  match scan_hex4 s with
  | None => None
  | Some (hi, r) =>
      if (55296 <=? hi) && (hi <=? 56319) then
        match r with
        | b :: u :: r' =>
            if (b =? "\")%char && (u =? "u")%char then
              match scan_hex4 r' with
              | Some (lo, r'') =>
                  if (56320 <=? lo) && (lo <=? 57343)
                  then Some (65536 + (hi - 55296) * 1024 + (lo - 56320), r'')
                  else Some (hi, r)
              | None => Some (hi, r)
              end
            else Some (hi, r)
        | _ => Some (hi, r)
        end
      else Some (hi, r)
  end.

(** The body of a string, [s] standing after the opening quote found at
    offset [start]; [acc] holds the bytes read so far, last first. *)
Fixpoint scan_string (fuel : nat) (start : nat) (s : chars) (pos : nat)
    (acc : chars) : scanned string :=
  match fuel with
  | O => Fail "Unterminated string starting at" start
  | S fuel' =>
      match s with
      | [] => Fail "Unterminated string starting at" start
      | c :: s' =>
          if (c =? "034")%char then
            Scanned (string_of_list_ascii (rev acc)) s' (S pos)
          else if (c =? "\")%char then
            match s' with
            | [] => Fail "Unterminated string starting at" start
            | e :: s'' =>
                if (e =? "u")%char then
                  match scan_unicode s'' with
                  | Some (cp, r) =>
                      scan_string fuel' start r (pos + (len s - len r))
                        (rev (utf8 cp) ++ acc)
                  | None => Fail "Invalid \uXXXX escape" (S pos)
                  end
                else
                  match simple_escape e with
                  | Some x => scan_string fuel' start s'' (S (S pos)) (x :: acc)
                  | None => Fail "Invalid \escape" pos
                  end
            end
          else if (nat_of_ascii c <? 32)%nat then
            Fail "Invalid control character at" pos
          else scan_string fuel' start s' (S pos) (c :: acc)
      end
  end.

(** *** Values *)

(** [dict(pairs)]: a repeated key keeps its first place and takes the
    last value. *)
Fixpoint dict_set (k : string) (v : value) (d : list (string * value))
  : list (string * value) :=
  match d with
  | [] => [(k, v)]
  | (k', v') :: d' =>
      if (k' =? k)%string then (k', v) :: d' else (k', v') :: dict_set k v d'
  end.

Definition dict_of_pairs (pairs : list (string * value)) : list (string * value) :=
  fold_left (fun d '(k, v) => dict_set k v d) pairs [].

Definition nan : spec_float := S754_nan.

(** The constants and numbers tried after the three structured forms. *)
Definition scan_atom (s : chars) (pos : nat) : scanned value :=
  let lit (text : string) (v : value) (otherwise : scanned value) :=
    match strip_prefix (list_ascii_of_string text) s with
    | Some r => Scanned v r (pos + String.length text)
    | None => otherwise
    end in
  lit "null" VNone (
  lit "true" (VBool true) (
  lit "false" (VBool false) (
  match scan_number s with
  | Some (v, r) => Scanned v r (pos + (len s - len r))
  | None =>
      lit "NaN" (VFloat nan) (
      lit "Infinity" (VFloat (S754_infinity false)) (
      lit "-Infinity" (VFloat (S754_infinity true)) (Stop pos)))
  end))).

Definition expecting_value {A} (r : scanned value)
    (k : value -> chars -> nat -> scanned A) : scanned A :=
  match r with
  | Scanned v rest pos => k v rest pos
  | Stop pos => Fail "Expecting value" pos
  | Fail msg pos => Fail msg pos
  end.

(** [scan_once], with the loops of the array and object parsers:
    [scan_elements] stands where the next element starts,
    [scan_members] after the opening quote of the next key. *)
Fixpoint scan_once (fuel : nat) (s : chars) (pos : nat) {struct fuel}
  : scanned value :=
  match fuel with
  | O => Stop pos
  | S fuel' =>
      match s with
      | [] => Stop pos
      | c :: s' =>
          if (c =? "034")%char then
            match scan_string (len s) pos s' (S pos) [] with
            | Scanned str r p => Scanned (VStr str) r p
            | Stop p => Stop p
            | Fail m p => Fail m p
            end
          else if (c =? "{")%char then
            let '(s1, p1) := skip_ws s' (S pos) in
            match s1 with
            | d :: s2 =>
                if (d =? "}")%char then Scanned (VDict []) s2 (S p1)
                else if (d =? "034")%char then
                  match scan_members fuel' s2 (S p1) [] with
                  | Scanned pairs r p => Scanned (VDict (dict_of_pairs pairs)) r p
                  | Stop p => Stop p
                  | Fail m p => Fail m p
                  end
                else Fail "Expecting property name enclosed in double quotes" p1
            | [] => Fail "Expecting property name enclosed in double quotes" p1
            end
          else if (c =? "[")%char then
            let '(s1, p1) := skip_ws s' (S pos) in
            match s1 with
            | d :: s2 =>
                if (d =? "]")%char then Scanned (VList []) s2 (S p1)
                else
                  match scan_elements fuel' s1 p1 [] with
                  | Scanned vs r p => Scanned (VList vs) r p
                  | Stop p => Stop p
                  | Fail m p => Fail m p
                  end
            | [] => Fail "Expecting value" p1
            end
          else scan_atom s pos
      end
  end

with scan_elements (fuel : nat) (s : chars) (pos : nat) (acc : list value)
    {struct fuel} : scanned (list value) :=
  match fuel with
  | O => Stop pos
  | S fuel' =>
      expecting_value (scan_once fuel' s pos) (fun v r p =>
        let '(r1, p1) := skip_ws r p in
        match r1 with
        | d :: r2 =>
            if (d =? "]")%char then Scanned (acc ++ [v]) r2 (S p1)
            else if (d =? ",")%char then
              let '(r3, p3) := skip_ws r2 (S p1) in
              scan_elements fuel' r3 p3 (acc ++ [v])
            else Fail "Expecting ',' delimiter" p1
        | [] => Fail "Expecting ',' delimiter" p1
        end)
  end

with scan_members (fuel : nat) (s : chars) (pos : nat)
    (acc : list (string * value)) {struct fuel}
  : scanned (list (string * value)) :=
  match fuel with
  | O => Stop pos
  | S fuel' =>
      match scan_string (len s) (pos - 1) s pos [] with
      | Stop p => Stop p
      | Fail m p => Fail m p
      | Scanned key r p =>
          let '(r1, p1) := skip_ws r p in
          match r1 with
          | [] => Fail "Expecting ':' delimiter" p1
          | d :: r2 =>
              if (d =? ":")%char then
                let '(r3, p3) := skip_ws r2 (S p1) in
                expecting_value (scan_once fuel' r3 p3) (fun v r4 p4 =>
                  let '(r5, p5) := skip_ws r4 p4 in
                  match r5 with
                  | e :: r6 =>
                      if (e =? "}")%char then Scanned (acc ++ [(key, v)]) r6 (S p5)
                      else if (e =? ",")%char then
                        let '(r7, p7) := skip_ws r6 (S p5) in
                        match r7 with
                        | q :: r8 =>
                            if (q =? "034")%char
                            then scan_members fuel' r8 (S p7) (acc ++ [(key, v)])
                            else Fail "Expecting property name enclosed in double quotes" p7
                        | [] => Fail "Expecting property name enclosed in double quotes" p7
                        end
                      else Fail "Expecting ',' delimiter" p5
                  | [] => Fail "Expecting ',' delimiter" p5
                  end)
              else Fail "Expecting ':' delimiter" p1
          end
      end
  end.

(** The byte order mark, as UTF-8. *)
Definition bom : chars := ["239"%char; "187"%char; "191"%char].

(** [json.loads] on a [str].  The scanner is given fuel for two calls
    per character, which the deepest nesting of the text cannot
    exhaust. *)
Definition json_loads (text : string) : decoded :=
  let s := list_ascii_of_string text in
  match strip_prefix bom s with
  | Some _ => Invalid "Unexpected UTF-8 BOM (decode using utf-8-sig)" 0
  | None =>
      let '(s0, p0) := skip_ws s 0 in
      match scan_once (2 * len s + 2) s0 p0 with
      | Stop p => Invalid "Expecting value" p
      | Fail m p => Invalid m p
      | Scanned v r p =>
          match skip_ws r p with
          | ([], _) => Decoded v
          | (_ :: _, p') => Invalid "Extra data" p'
          end
      end
  end.

(** *** Calendar forms *)

Definition is_leap (y : Z) : bool :=
  ((y mod 4 =? 0) && negb (y mod 100 =? 0)) || (y mod 400 =? 0).

Definition days_in_month (y m : Z) : Z :=
  if m =? 2 then (if is_leap y then 29 else 28)
  else if (m =? 4) || (m =? 6) || (m =? 9) || (m =? 11) then 30
  else 31.

(** [datetime.date(y, m, d)] *)
Definition make_date (y m d : Z) : option date :=
  if (1 <=? y) && (y <=? 9999) && (1 <=? m) && (m <=? 12)
     && (1 <=? d) && (d <=? days_in_month y m)
  then Some {| year := y; month := m; day := d |}
  else None.

(** Exactly [n] digits at the head of [s]. *)
Fixpoint fixed_digits (n : nat) (s : chars) : option (chars * chars) :=
  match n with
  | O => Some ([], s)
  | S n' =>
      match s with
      | c :: s' =>
          if is_digit c then
            match fixed_digits n' s' with
            | Some (ds, r) => Some (c :: ds, r)
            | None => None
            end
          else None
      | [] => None
      end
  end.

Definition expect (c : ascii) (s : chars) : option chars :=
  match s with
  | d :: s' => if (c =? d)%char then Some s' else None
  | [] => None
  end.

Definition opt_bind {A B} (o : option A) (k : A -> option B) : option B :=
  match o with Some a => k a | None => None end.

(** [YYYY-MM-DD] at the head of [s]. *)
Definition scan_date (s : chars) : option (date * chars) :=
  opt_bind (fixed_digits 4 s) (fun '(y, s) =>
  opt_bind (expect "-" s) (fun s =>
  opt_bind (fixed_digits 2 s) (fun '(m, s) =>
  opt_bind (expect "-" s) (fun s =>
  opt_bind (fixed_digits 2 s) (fun '(d, s) =>
  opt_bind (make_date (digits_val y) (digits_val m) (digits_val d)) (fun dt =>
  Some (dt, s))))))).

(** [HH:MM:SS], the whole of [s]. *)
Definition scan_time (s : chars) : option (Z * Z * Z) :=
  opt_bind (fixed_digits 2 s) (fun '(h, s) =>
  opt_bind (expect ":" s) (fun s =>
  opt_bind (fixed_digits 2 s) (fun '(m, s) =>
  opt_bind (expect ":" s) (fun s =>
  opt_bind (fixed_digits 2 s) (fun '(x, s) =>
  match s with
  | [] =>
      let '(h, m, x) := (digits_val h, digits_val m, digits_val x) in
      if (h <? 24) && (m <? 60) && (x <? 60) then Some (h, m, x) else None
  | _ :: _ => None
  end))))).

Definition at_time (d : date) (t : Z * Z * Z) : datetime :=
  let '(h, m, x) := t in
  {| dt_date := d; hour := h; minute := m; second := x; microsecond := 0;
     utcoffset := None |}.

(** [datetime.fromisoformat] on the forms [YYYY-MM-DD] and
    [YYYY-MM-DD?HH:MM:SS] (any separator), the spellings of the log
    format; it declines every other text. *)
Definition fromisoformat (text : string) : option datetime :=
  opt_bind (scan_date (list_ascii_of_string text)) (fun '(d, s) =>
  match s with
  | [] => Some (at_time d (0, 0, 0))
  | _ :: s' => opt_bind (scan_time s') (fun t => Some (at_time d t))
  end).

(** One or two digits, as [%m] and [%d] read them. *)
Definition short_digits (s : chars) : option (chars * chars) :=
  match fixed_digits 2 s with
  | Some r => Some r
  | None => fixed_digits 1 s
  end.

(** [datetime.strptime] for the format ["%Y-%m-%d"], the one the program
    uses; it declines every other format. *)
Definition strptime (text format : string) : option datetime :=
  if (format =? "%Y-%m-%d")%string then
    opt_bind (fixed_digits 4 (list_ascii_of_string text)) (fun '(y, s) =>
    opt_bind (expect "-" s) (fun s =>
    opt_bind (short_digits s) (fun '(m, s) =>
    opt_bind (expect "-" s) (fun s =>
    opt_bind (short_digits s) (fun '(d, s) =>
    match s with
    | [] =>
        opt_bind (make_date (digits_val y) (digits_val m) (digits_val d))
          (fun dt => Some (at_time dt (0, 0, 0)))
    | _ :: _ => None
    end)))))
  else None.

Definition library : Library.t :=
  {| Library.json_loads := json_loads;
     Library.fromisoformat := fromisoformat;
     Library.strptime := strptime |}.

(** A file system holding the listed files. *)
Fixpoint files_of (table : list (string * list string)) : filesystem :=
  fun path =>
    match table with
    | [] => None
    | (p, lines) :: rest =>
        if (p =? path)%string then Some lines else files_of rest path
    end.

(** A line of a log file: the text followed by a newline. *)
Definition line (text : string) : string :=
  (quoted text ++ String "010"%char EmptyString)%string.

End Sample.

(* ================================================================= *)
(** * Reference notions

    What the properties speak about: the lines read, the records they
    decode to, and which records count for an endpoint. *)

Section Notions.
Context {lib : Library.t}.

(** All lines of the files, in file order then line order, when every
    file can be opened. *)
Fixpoint read_all (fs : filesystem) (file_paths : list string)
  : option (list string) :=
  match file_paths with
  | [] => Some []
  | p :: ps =>
      match fs p, read_all fs ps with
      | Some lines, Some rest => Some (lines ++ rest)
      | _, _ => None
      end
  end.

Definition decodes (line : string) : bool :=
  match json_loads line with Decoded _ => true | Invalid _ _ => false end.

(** The successfully decoded records of a sequence of lines. *)
Definition decode_all (lines : list string) : list value :=
  flat_map (fun l => match json_loads l with
                     | Decoded v => [v]
                     | Invalid _ _ => []
                     end) lines.

(** A field of a record, [VNone] standing for an absent field. *)
Definition field (k : string) (r : value) : value :=
  match r with
  | VDict d => match dict_get k d with Some v => v | None => VNone end
  | _ => VNone
  end.

Definition has_field (k : string) (r : value) : bool :=
  match r with
  | VDict d => match dict_get k d with Some _ => true | None => false end
  | _ => false
  end.

(** The date of a record's timestamp, if it has one. *)
Definition record_date (r : value) : option date :=
  match r with
  | VDict d =>
      match dict_get "@timestamp" d with
      | Some (VStr s) => option_map dt_date (fromisoformat s)
      | _ => None
      end
  | _ => None
  end.

(** A well-formed record: a JSON object whose [@timestamp], when
    present, is a string the library reads as a date-time, whose [url]
    is absent, null or a string, and whose [response_time] is absent,
    null or a number. *)
Definition timestamp_ok (r : value) : bool :=
  match r with
  | VDict d =>
      match dict_get "@timestamp" d with
      | None => true
      | Some (VStr s) =>
          match fromisoformat s with Some _ => true | None => false end
      | Some _ => false
      end
  | _ => false
  end.

Definition url_ok (r : value) : bool :=
  match field "url" r with
  | VNone | VStr _ => true
  | _ => false
  end.

Definition response_time_ok (r : value) : bool :=
  match field "response_time" r with
  | VNone => true
  | v => match as_num v with Some _ => true | None => false end
  end.

Definition well_formed (r : value) : bool :=
  timestamp_ok r && url_ok r && response_time_ok r.

Definition well_formed_line (line : string) : bool :=
  match json_loads line with
  | Decoded r => well_formed r
  | Invalid _ _ => false
  end.

(** The record passes the date filter: there is no filter, or the
    record has a timestamp on the filter date. *)
Definition on_date (report_date : option date) (r : value) : bool :=
  match report_date with
  | None => true
  | Some d =>
      match record_date r with
      | Some d' => date_eqb d' d
      | None => false
      end
  end.

Definition has_url (e : string) (r : value) : bool :=
  match field "url" r with
  | VStr s => (s =? e)%string
  | _ => false
  end.

Definition has_response_time (r : value) : bool :=
  negb (is_none (field "response_time" r)).

(** The records the specification counts for endpoint [e]: those with
    that url and a response time, on the filter date. *)
Definition counted_as_specified (report_date : option date) (e : string)
    (r : value) : bool :=
  has_url e r && has_response_time r && on_date report_date r.

(** The records the program counts for endpoint [e]: the url must moreover
    be non-empty. *)
Definition counted (report_date : option date) (e : string) (r : value)
  : bool :=
  negb (e =? EmptyString)%string && counted_as_specified report_date e r.

Definition count_for (report_date : option date) (e : string)
    (records : list value) : Z :=
  Z.of_nat (List.length (filter (counted report_date e) records)).

(** The sum of the response times counted for [e], added up in read
    order from the integer [0]. *)
Definition total_for (report_date : option date) (e : string)
    (records : list value) : result num :=
  for_each py_add (NInt 0)
    (map (field "response_time") (filter (counted report_date e) records)).

(** The urls that occur in the records. *)
Definition endpoints (records : list value) : list string :=
  flat_map (fun r => match field "url" r with VStr s => [s] | _ => [] end)
    records.

(** No running total leaves the range of the floats: every sum the
    run has to form is defined. *)
Definition totals_defined (report_date : option date)
    (records : list value) : bool :=
  forallb (fun e => returns (total_for report_date e records))
    (endpoints records).

(** The response time of the record, if any, is no float. *)
Definition integer_time (r : value) : bool :=
  match field "response_time" r with
  | VFloat _ => false
  | _ => true
  end.

(** What the returned mapping says about endpoint [e]: an absent key
    reads as a zero count. *)
Definition count_in (endpoint_stats : list (value * stats)) (e : string) : Z :=
  match dd_find (VStr e) endpoint_stats with
  | Some s => count s
  | None => 0
  end.

(** The mapping agrees with the records read so far: a key is present
    exactly when some record counts for it, with their number and the
    sum of their response times. *)
Definition agrees (report_date : option date) (records : list value)
    (endpoint_stats : list (value * stats)) : Prop :=
  forall e,
    match dd_find (VStr e) endpoint_stats with
    | Some s =>
        count s = count_for report_date e records /\
        total_for report_date e records = Ok (total_response_time s) /\
        0 < count s
    | None => count_for report_date e records = 0
    end.

(** The agent a record is tallied under. *)
Definition agent_of (r : value) : string :=
  match r with
  | VDict d =>
      match dict_get "http_user_agent" d with
      | Some (VStr s) => s
      | _ => "Unknown"
      end
  | _ => "Unknown"
  end.

(** A record of the agent report: a JSON object whose
    [http_user_agent], when present, is a string. *)
Definition agent_ok (r : value) : bool :=
  match r with
  | VDict d =>
      match dict_get "http_user_agent" d with
      | None | Some (VStr _) => true
      | Some _ => false
      end
  | _ => false
  end.

(** The distinct values of a list, in order of first appearance. *)
Fixpoint distinct (l : list string) : list string :=
  match l with
  | [] => []
  | a :: l' => a :: remove string_dec a (distinct l')
  end.

(** The reference agent report: one row per distinct agent, in order of
    first appearance, with the number of its occurrences. *)
Definition agent_rows (agents : list string) : list (value * Z) :=
  map (fun a => (VStr a, Z.of_nat (count_occ string_dec agents a)))
    (distinct agents).

(** The sum of the counts of the agent report. *)
Definition total_count (rows : list (value * Z)) : Z :=
  fold_right Z.add 0 (map snd rows).

Definition lacks_agent (r : value) : bool :=
  negb (has_field "http_user_agent" r).

(** The record spells the agent ["Unknown"] out. *)
Definition names_unknown (r : value) : bool :=
  has_field "http_user_agent" r && (agent_of r =? "Unknown")%string.

(** The average of one entry: the quotient, or the integer [0] for an
    entry without requests. *)
Definition average_of (s : stats) : result num :=
  if 0 <? count s then py_truediv (total_response_time s) (count s)
  else Ok (NInt 0).

(** The row the average report shows for an item of the mapping. *)
Definition row_of (item : value * stats)
    (row : AverageResponseTimeReport.row) : Prop :=
  exists average,
    average_of (snd item) = Ok average /\
    row = (fst item, count (snd item), average).

(** Two lines that decode to records with the same recognized fields
    [@timestamp], [url] and [response_time], whatever else they hold. *)
Definition alike (line line' : string) : Prop :=
  exists r r',
    json_loads line = Decoded r /\ json_loads line' = Decoded r' /\
    timestamp_ok r = true /\ timestamp_ok r' = true /\
    record_date r = record_date r' /\
    field "url" r = field "url" r' /\
    field "response_time" r = field "response_time" r'.

(** The endpoint statistics of a run. *)
Definition stats_of (run : result (list (value * stats) * list value))
  : result (list (value * stats)) :=
  '(es, _) <- run ;; Ok es.

(** The line decodes to a JSON object. *)
Definition object_line (line : string) : bool :=
  match json_loads line with
  | Decoded (VDict _) => true
  | _ => false
  end.

End Notions.

(* ================================================================= *)
(** * Scenarios

    The inputs of the test suite and a few more, as files of the sample
    file system. *)

Module Scenario.
Import Sample.

Definition june22 : date := {| year := 2025; month := 6; day := 22 |}.
Definition june23 : date := {| year := 2025; month := 6; day := 23 |}.
Definition july1 : date := {| year := 2025; month := 7; day := 1 |}.

(** The two records of the test fixture. *)
Definition test_logs : list string :=
  [ line "{'@timestamp': '2025-06-22T12:00:00', 'url': '/api/v1/resource', 'response_time': 200, 'http_user_agent': 'Mozilla/5.0'}";
    line "{'@timestamp': '2025-06-22T12:05:00', 'url': '/api/v1/resource', 'response_time': 300, 'http_user_agent': 'Mozilla/5.0'}" ].

(** Two more records of the agent test, and one without agent,
    timestamp or url. *)
Definition more_logs : list string :=
  [ line "{'@timestamp': '2025-06-22T12:10:00', 'url': '/api/v1/another_resource', 'response_time': 400, 'http_user_agent': 'Chrome/91.0'}";
    line "{'@timestamp': '2025-06-23T12:15:00', 'url': '/api/v1/resource', 'response_time': 250, 'http_user_agent': 'Firefox/89.0'}";
    line "{'response_time': 0.5, 'status': 200}" ].

(** A record whose url is the empty string. *)
Definition empty_url : list string :=
  [ line "{'url': '', 'response_time': 5}" ].

(** A JSON object whose timestamp is a number. *)
Definition bad_timestamp : list string :=
  [ line "{'@timestamp': 5}" ].

(** The same undecodable line, first in one file and second in
    another. *)
Definition broken : list string := [ line "oops" ].
Definition late_broken : list string := [ line "{}"; line "oops" ].

(** The decoded records of the agent test. *)
Definition agent_logs : list value :=
  decode_all (lib := library) (test_logs ++ more_logs).

(** A record whose response time is the integer [10 ^ 400], written out
    with its four hundred zeros, and the mapping it leads to: an entry
    whose total is beyond the range of the floats. *)
Definition huge_time : list string :=
  [ line ("{'url': '/api/v1/resource', 'response_time': 1"
          ++ string_of_list_ascii (repeat "0"%char 400) ++ "}")%string ].

Definition huge_stats : list (value * stats) :=
  [ (VStr "/api/v1/resource",
     {| count := 1; total_response_time := NInt (10 ^ 400) |}) ].

Definition fs : filesystem :=
  files_of
    [ ("test_logs.json", test_logs);
      ("more_logs.json", more_logs);
      ("empty_url.json", empty_url);
      ("bad_timestamp.json", bad_timestamp);
      ("broken.json", broken);
      ("late_broken.json", late_broken);
      ("huge_time.json", huge_time) ].

(** The outcome of the unfiltered run over the two log files. *)
Definition parsed : result (list (value * stats) * list value) :=
  Eval vm_compute in
    parse_logs (lib := library) fs ["test_logs.json"; "more_logs.json"] None.

Definition parsed_stats : list (value * stats) :=
  match parsed with Ok (es, _) => es | Raise _ => [] end.

Definition parsed_logs : list value :=
  match parsed with Ok (_, logs) => logs | Raise _ => [] end.

(** The mapping of the report test. *)
Definition test_stats : list (value * stats) :=
  [ (VStr "/api/v1/resource",
     {| count := 2; total_response_time := NInt 500 |});
    (VStr "/api/v1/another_resource",
     {| count := 1; total_response_time := NInt 400 |}) ].

End Scenario.

(* ================================================================= *)
(** * Further notions

    What the properties beyond the claims speak about. *)

Section FurtherNotions.
Context {lib : Library.t}.

(** The test [parse_logs] puts a record to before it counts it: the
    record passes the date filter, its url is true and its response time
    is not [None]. *)
Definition contributes (report_date : option date) (r : value) : bool :=
  on_date report_date r && truthy (field "url" r) && has_response_time r.

(** The sum of the counts of the mapping. *)
Definition stats_total (endpoint_stats : list (value * stats)) : Z :=
  fold_right Z.add 0 (map (fun item => count (snd item)) endpoint_stats).

(** The urls of the counted records, in read order, one per record. *)
Definition contributors (report_date : option date) (records : list value)
  : list string :=
  flat_map (fun r => match field "url" r with
                     | VStr e => if counted report_date e r then [e] else []
                     | _ => []
                     end) records.

(** The integer a value stands for, [0] where it stands for none. *)
Definition int_value (v : value) : Z :=
  match as_num v with
  | Some (NInt n) => n
  | _ => 0
  end.

(** The sum, as integers, of the response times counted for [e]. *)
Definition int_total (report_date : option date) (e : string)
    (records : list value) : Z :=
  fold_right Z.add 0
    (map (fun r => int_value (field "response_time" r))
       (filter (counted report_date e) records)).

(** The value a record is tallied under by the agent report. *)
Definition agent_value (r : value) : value :=
  match r with
  | VDict d =>
      match dict_get "http_user_agent" d with
      | Some v => v
      | None => VStr "Unknown"
      end
  | _ => VNone
  end.

(** The agent report can tally the record: it is a JSON object and its
    agent is hashable. *)
Definition tallyable (r : value) : bool :=
  match r with
  | VDict _ => hashable (agent_value r)
  | _ => false
  end.

(** The tally of agent [a] in a report, [0] when it has no row. *)
Definition tally (rows : list (value * Z)) (a : string) : Z :=
  match dd_find (VStr a) rows with
  | Some n => n
  | None => 0
  end.

(** A JSON number, boolean or null. *)
Definition scalar (v : value) : bool :=
  match v with
  | VNone | VBool _ | VInt _ | VFloat _ => true
  | _ => false
  end.

(** A JSON array or string in which ["@timestamp"] does not occur. *)
Definition bare_sequence (v : value) : bool :=
  match v with
  | VList l => negb (existsb (str_eqb "@timestamp") l)
  | VStr s => negb (is_substring "@timestamp" s)
  | _ => false
  end.

Definition bare_sequence_line (line : string) : bool :=
  match json_loads line with
  | Decoded v => bare_sequence v
  | Invalid _ _ => false
  end.

(** The exception a present [@timestamp] of value [v] raises, if any. *)
Definition timestamp_error (v : value) : option exn :=
  match v with
  | VStr s =>
      match fromisoformat s with
      | Some _ => None
      | None => Some ValueError
      end
  | _ => Some TypeError
  end.

(** The command line with its [--date] left out. *)
Definition without_date (a : args) : args :=
  {| files := files a; report := report a; date_arg := None |}.


End FurtherNotions.

(** The inputs of the further properties. *)
Module Cases.
Import Sample.

(** The two log files of the scenarios as one file. *)
Definition all_logs : list string :=
  Scenario.test_logs ++ Scenario.more_logs.

(** An object, then a number. *)
Definition numbers : list string := [ line "{}"; line "42" ].

(** An array and a string. *)
Definition sequences : list string := [ line "[1, 2]"; line "'plain text'" ].

(** A record whose timestamp is null, after a record without
    timestamp. *)
Definition null_timestamp : list string :=
  [ line "{'url': '/api/v1/resource'}";
    line "{'@timestamp': null, 'url': '/api/v1/resource', 'response_time': 1}" ].

Definition fs : filesystem :=
  files_of
    [ ("test_logs.json", Scenario.test_logs);
      ("more_logs.json", Scenario.more_logs);
      ("all_logs.json", all_logs);
      ("numbers.json", numbers);
      ("sequences.json", sequences);
      ("null_timestamp.json", null_timestamp) ].

(** The outcome of the run filtered on June 22. *)
Definition filtered : result (list (value * stats) * list value) :=
  Eval vm_compute in
    parse_logs (lib := library) fs ["test_logs.json"; "more_logs.json"]
      (Some Scenario.june22).

Definition filtered_stats : list (value * stats) :=
  match filtered with Ok (es, _) => es | Raise _ => [] end.

Definition filtered_logs : list value :=
  match filtered with Ok (_, logs) => logs | Raise _ => [] end.

End Cases.

(* ================================================================= *)
(** * Properties *)

(** ** Fallible computations and loops *)

Lemma bind_Ok {A B} (c : result A) (k : A -> result B) (b : B) :
  bind c k = Ok b -> exists a, c = Ok a /\ k a = Ok b.
Proof.
  destruct c as [a|e]; simpl; intros H.
  - exists a. split; [reflexivity | exact H].
  - discriminate H.
Qed.

Lemma returns_Ok {A} (c : result A) :
  returns c = true -> exists a, c = Ok a.
Proof.
  destruct c as [a|e]; simpl; intros H; [exists a; reflexivity | discriminate H].
Qed.

Lemma for_each_app {S A} (body : S -> A -> result S) (l1 l2 : list A) (s : S) :
  for_each body s (l1 ++ l2) =
  bind (for_each body s l1) (fun s' => for_each body s' l2).
Proof.
  revert s. induction l1 as [|x l1 IH]; intros s; simpl.
  - reflexivity.
  - destruct (body s x) as [s'|e]; simpl; [apply IH | reflexivity].
Qed.

Lemma for_each_ext {S A} (f g : S -> A -> result S) (l : list A) (s : S) :
  (forall s' x, In x l -> f s' x = g s' x) ->
  for_each f s l = for_each g s l.
Proof.
  revert s. induction l as [|x l IH]; intros s H; simpl.
  - reflexivity.
  - rewrite (H s x (or_introl eq_refl)).
    destruct (g s x) as [s'|e]; simpl; [|reflexivity].
    apply IH. intros s'' y Hy. apply H. right. exact Hy.
Qed.

(** A loop that meets a failing iteration fails, whatever came before. *)
Lemma for_each_fails {S A} (body : S -> A -> result S) (l : list A) (x : A) :
  In x l -> (forall s, returns (body s x) = false) ->
  forall s, returns (for_each body s l) = false.
Proof.
  induction l as [|y l IH]; intros Hin Hx s; simpl.
  - destruct Hin.
  - destruct (body s y) as [s'|e] eqn:E; simpl; [|reflexivity].
    destruct Hin as [->|Hin].
    + specialize (Hx s). rewrite E in Hx. discriminate Hx.
    + apply IH; assumption.
Qed.

(** A loop that returns has returned on every prefix. *)
Lemma for_each_prefix {S A} (body : S -> A -> result S) (l1 l2 : list A) (s : S) :
  returns (for_each body s (l1 ++ l2)) = true ->
  returns (for_each body s l1) = true.
Proof.
  rewrite for_each_app. destruct (for_each body s l1); simpl; auto.
Qed.

(** ** Keys *)

Lemma SFeqb_refl (f : spec_float) : is_nan f = false -> SFeqb f f = true.
Proof.
  unfold SFeqb. destruct f as [s|s| |s m e]; simpl; intros H.
  - reflexivity.
  - destruct s; reflexivity.
  - discriminate H.
  - destruct s; rewrite Z.compare_refl, Pos.compare_cont_refl; reflexivity.
Qed.

Lemma key_eqb_refl (k : value) : hashable k = true -> key_eqb k k = true.
Proof.
  destruct k; simpl; intros H; try discriminate H; try reflexivity.
  - apply Z.eqb_refl.
  - apply Z.eqb_refl.
  - destruct (is_nan f) eqn:E.
    + rewrite orb_true_r. reflexivity.
    + rewrite SFeqb_refl by exact E. reflexivity.
  - apply String.eqb_refl.
Qed.

Lemma key_eqb_str_r (k : value) (s : string) :
  key_eqb k (VStr s) = true -> k = VStr s.
Proof.
  destruct k as [|b|n|f|t|l|d]; simpl; try discriminate.
  intros H. apply String.eqb_eq in H. subst. reflexivity.
Qed.

Lemma key_eqb_str (a b : string) : key_eqb (VStr a) (VStr b) = (a =? b)%string.
Proof. reflexivity. Qed.

(** ** [defaultdict] *)

Section DefaultDictFacts.
Context {V : Type}.
Implicit Types (d : list (value * V)) (k : value) (v : V).

Lemma dd_find_app d1 d2 k :
  dd_find k (d1 ++ d2) =
  match dd_find k d1 with Some v => Some v | None => dd_find k d2 end.
Proof.
  induction d1 as [|[k' v'] d1 IH]; simpl; [reflexivity|].
  destruct (key_eqb k' k); [reflexivity | exact IH].
Qed.

Lemma dd_find_In d k v : dd_find k d = Some v -> exists k', In (k', v) d.
Proof.
  induction d as [|[k' v'] d IH]; simpl; [discriminate|].
  destruct (key_eqb k' k).
  - intros [= ->]. exists k'. left. reflexivity.
  - intros H. destruct (IH H) as [k'' Hin]. exists k''. right. exact Hin.
Qed.

Lemma dd_replace_none d k v : dd_find k d = None -> dd_replace k v d = d.
Proof.
  induction d as [|[k' v'] d IH]; simpl; [reflexivity|].
  destruct (key_eqb k' k); [discriminate|].
  intros H. rewrite (IH H). reflexivity.
Qed.

Lemma dd_find_replace d k v v0 :
  dd_find k d = Some v0 -> dd_find k (dd_replace k v d) = Some v.
Proof.
  induction d as [|[k' v'] d IH]; simpl; [discriminate|].
  destruct (key_eqb k' k) eqn:E; simpl; rewrite E; [reflexivity | exact IH].
Qed.

Lemma dd_replace_replace d k v v' :
  dd_replace k v' (dd_replace k v d) = dd_replace k v' d.
Proof.
  induction d as [|[k' w] d IH]; simpl; [reflexivity|].
  destruct (key_eqb k' k) eqn:E; simpl; rewrite E; [reflexivity|].
  rewrite IH. reflexivity.
Qed.

Lemma dd_replace_app_new d k v v' :
  dd_find k d = None -> key_eqb k k = true ->
  dd_replace k v' (d ++ [(k, v)]) = d ++ [(k, v')].
Proof.
  intros Hnone Hrefl.
  induction d as [|[k' w] d IH]; simpl in *.
  - rewrite Hrefl. reflexivity.
  - destruct (key_eqb k' k); [discriminate|].
    rewrite (IH Hnone). reflexivity.
Qed.

(** Storing under a hashable key, then reading it back. *)
Lemma dd_find_setitem d k v :
  hashable k = true -> dd_find k (dd_setitem d k v) = Some v.
Proof.
  intros Hk. unfold dd_setitem.
  destruct (dd_find k d) as [v0|] eqn:E.
  - eapply dd_find_replace. exact E.
  - rewrite dd_find_app, E. simpl. rewrite (key_eqb_refl k Hk). reflexivity.
Qed.

Lemma dd_setitem_setitem d k v v' :
  hashable k = true ->
  dd_setitem (dd_setitem d k v) k v' = dd_setitem d k v'.
Proof.
  intros Hk. unfold dd_setitem at 1.
  rewrite (dd_find_setitem d k v Hk). unfold dd_setitem.
  destruct (dd_find k d) as [v0|] eqn:E.
  - apply dd_replace_replace.
  - apply dd_replace_app_new; [exact E | apply key_eqb_refl; exact Hk].
Qed.

(** Storing under a key that a read has just materialised. *)
Lemma dd_setitem_materialised d k v0 v :
  hashable k = true -> dd_find k d = None ->
  dd_setitem (d ++ [(k, v0)]) k v = dd_setitem d k v.
Proof.
  intros Hk E. unfold dd_setitem.
  rewrite dd_find_app, E. simpl. rewrite (key_eqb_refl k Hk).
  apply dd_replace_app_new; [exact E | apply key_eqb_refl; exact Hk].
Qed.

(** Storing under one string key leaves the other string keys alone. *)
Lemma dd_find_replace_other d (a b : string) v :
  a <> b -> dd_find (VStr a) (dd_replace (VStr b) v d) = dd_find (VStr a) d.
Proof.
  intros Hab.
  induction d as [|[k' w] d IH]; simpl; [reflexivity|].
  destruct (key_eqb k' (VStr b)) eqn:E; simpl.
  - apply key_eqb_str_r in E. subst k'. simpl.
    destruct (String.eqb_spec b a) as [->|_]; [contradiction Hab; reflexivity|].
    reflexivity.
  - destruct (key_eqb k' (VStr a)); [reflexivity | exact IH].
Qed.

Lemma dd_find_setitem_other d (a b : string) v :
  a <> b -> dd_find (VStr a) (dd_setitem d (VStr b) v) = dd_find (VStr a) d.
Proof.
  intros Hab. unfold dd_setitem.
  destruct (dd_find (VStr b) d) as [v0|].
  - apply dd_find_replace_other. exact Hab.
  - rewrite dd_find_app. destruct (dd_find (VStr a) d); [reflexivity|].
    simpl.
    destruct (String.eqb_spec b a) as [->|_]; [contradiction Hab; reflexivity|].
    reflexivity.
Qed.

Lemma dd_replace_keys d k v : map fst (dd_replace k v d) = map fst d.
Proof.
  induction d as [|[k' w] d IH]; simpl; [reflexivity|].
  destruct (key_eqb k' k); simpl; [reflexivity | rewrite IH; reflexivity].
Qed.

Lemma dd_setitem_keys d k v :
  map fst (dd_setitem d k v) =
  match dd_find k d with
  | Some _ => map fst d
  | None => map fst d ++ [k]
  end.
Proof.
  unfold dd_setitem. destruct (dd_find k d).
  - apply dd_replace_keys.
  - rewrite map_app. reflexivity.
Qed.

Lemma dd_replace_Forall (P : value * V -> Prop) d k v :
  Forall P d -> (forall k', P (k', v)) -> Forall P (dd_replace k v d).
Proof.
  intros Hd Hv.
  induction Hd as [|[k' w] d Hw Hd IH]; simpl; [constructor|].
  destruct (key_eqb k' k); constructor; auto.
Qed.

Lemma dd_setitem_Forall (P : value * V -> Prop) d k v :
  Forall P d -> (forall k', P (k', v)) -> Forall P (dd_setitem d k v).
Proof.
  intros Hd Hv. unfold dd_setitem. destruct (dd_find k d).
  - apply dd_replace_Forall; assumption.
  - apply Forall_app. split; [exact Hd|]. constructor; [apply Hv | constructor].
Qed.
End DefaultDictFacts.

(** ** The loops of [parse_logs] *)

Section ParseLogsFacts.
Context {lib : Library.t}.

Local Ltac inv_bind H :=
  let a := fresh "a" in
  let Ha := fresh "Ha" in
  apply bind_Ok in H; destruct H as (a & Ha & H).

(** With every file at hand the two nested loops are one loop over all
    lines. *)
Lemma process_files_read_all fs d paths :
  forall lines state,
    read_all fs paths = Some lines ->
    for_each (process_file fs d) state paths =
    for_each (process_line d) state lines.
Proof.
  induction paths as [|p ps IH]; simpl; intros lines state H.
  - injection H as <-. reflexivity.
  - unfold process_file at 1.
    destruct (fs p) as [ls|]; [|discriminate H].
    destruct (read_all fs ps) as [rest|]; [|discriminate H].
    injection H as <-. rewrite for_each_app.
    destruct (for_each (process_line d) state ls) as [s'|e]; simpl.
    + apply IH. reflexivity.
    + reflexivity.
Qed.

Lemma parse_logs_read_all fs d paths lines :
  read_all fs paths = Some lines ->
  parse_logs fs paths d = for_each (process_line d) ([], []) lines.
Proof. apply process_files_read_all. Qed.

(** A run that returns has opened every file. *)
Lemma process_files_returns fs d paths :
  forall state,
    returns (for_each (process_file fs d) state paths) = true ->
    exists lines, read_all fs paths = Some lines.
Proof.
  induction paths as [|p ps IH]; simpl; intros state H.
  - exists []. reflexivity.
  - unfold process_file at 1 in H.
    destruct (fs p) as [ls|]; [|discriminate H].
    destruct (for_each (process_line d) state ls) as [s'|e]; [|discriminate H].
    simpl in H. destruct (IH _ H) as [rest ->].
    exists (ls ++ rest). reflexivity.
Qed.

(** One iteration appends the decoded line to [logs], filtered or
    not. *)
Lemma process_line_logs d stats logs line stats' logs' :
  process_line d (stats, logs) line = Ok (stats', logs') ->
  exists r, json_loads line = Decoded r /\ logs' = logs ++ [r].
Proof.
  unfold process_line, loads.
  destruct (json_loads line) as [r|msg pos]; simpl; [|discriminate].
  intros H. exists r. split; [reflexivity|].
  inv_bind H.
  destruct (skipped d a).
  - injection H as _ <-. reflexivity.
  - inv_bind H. inv_bind H.
    destruct (truthy a0 && negb (is_none a1)).
    + inv_bind H. injection H as _ <-. reflexivity.
    + injection H as _ <-. reflexivity.
Qed.

Lemma process_lines_logs d lines :
  forall stats logs stats' logs',
    for_each (process_line d) (stats, logs) lines = Ok (stats', logs') ->
    logs' = logs ++ decode_all lines /\
    Forall (fun l => decodes l = true) lines.
Proof.
  induction lines as [|l lines IH]; simpl; intros stats logs stats' logs' H.
  - injection H as _ <-. rewrite app_nil_r. split; [reflexivity | constructor].
  - inv_bind H. destruct a as [stats1 logs1].
    destruct (process_line_logs _ _ _ _ _ _ Ha) as (r & Hr & ->).
    destruct (IH _ _ _ _ H) as (-> & Hall).
    unfold decodes at 1. rewrite Hr. rewrite <- app_assoc. simpl.
    split; [reflexivity|]. constructor; [|exact Hall].
    unfold decodes. rewrite Hr. reflexivity.
Qed.

Lemma decode_all_length lines :
  Forall (fun l => decodes l = true) lines ->
  List.length (decode_all lines) = List.length lines.
Proof.
  induction 1 as [|l lines Hl _ IH]; simpl; [reflexivity|].
  unfold decodes in Hl. destruct (json_loads l); [|discriminate Hl].
  simpl. rewrite IH. reflexivity.
Qed.

Lemma decode_all_app l1 l2 :
  decode_all (l1 ++ l2) = decode_all l1 ++ decode_all l2.
Proof. unfold decode_all. apply flat_map_app. Qed.

(** An undecodable line fails its iteration with the decoder's
    error. *)
Lemma process_line_invalid d state line msg pos :
  json_loads line = Invalid msg pos ->
  process_line d state line = Raise (JSONDecodeError msg line pos).
Proof.
  intros H. destruct state as [stats logs].
  unfold process_line, loads. rewrite H. reflexivity.
Qed.

(** *** The augmented assignments *)

(** [contribute] stores the incremented entry under the key. *)
Lemma contribute_eq es k rt :
  hashable k = true ->
  contribute es k rt =
  (let entry := match dd_find k es with Some s => s | None => new_stats end in
   total <- py_add (total_response_time entry) rt ;;
   Ok (dd_setitem es k
         {| count := count entry + 1; total_response_time := total |})).
Proof.
  intros Hk. unfold contribute, dd_getitem. rewrite Hk.
  destruct (dd_find k es) as [s|] eqn:E; cbn [bind].
  - rewrite (dd_find_setitem es k _ Hk). cbn [bind total_response_time count].
    destruct (py_add (total_response_time s) rt) as [t|e]; cbn [bind]; [|reflexivity].
    rewrite (dd_setitem_setitem es k _ _ Hk). reflexivity.
  - rewrite (dd_setitem_materialised es k _ _ Hk E).
    rewrite (dd_find_setitem es k _ Hk). cbn [bind total_response_time count].
    destruct (py_add (total_response_time new_stats) rt) as [t|e];
      cbn [bind]; [|reflexivity].
    rewrite (dd_setitem_setitem es k _ _ Hk). reflexivity.
Qed.

(** Every entry of the mapping was incremented when it was made. *)
Lemma contribute_positive stats k rt stats' :
  Forall (fun kv : value * _ => 1 <= count (snd kv)) stats ->
  contribute stats k rt = Ok stats' ->
  Forall (fun kv => 1 <= count (snd kv)) stats'.
Proof.
  intros Hpos H.
  destruct (hashable k) eqn:Hk.
  - rewrite (contribute_eq _ _ _ Hk) in H. simpl in H.
    inv_bind H. injection H as <-.
    apply dd_setitem_Forall; [exact Hpos|].
    intros k'. simpl.
    destruct (dd_find k stats) as [s|] eqn:E.
    + destruct (dd_find_In _ _ _ E) as [k'' Hin].
      rewrite Forall_forall in Hpos. specialize (Hpos _ Hin). simpl in Hpos. lia.
    + simpl. lia.
  - unfold contribute, dd_getitem in H. rewrite Hk in H. discriminate H.
Qed.

Lemma process_line_positive d stats logs line stats' logs' :
  Forall (fun kv => 1 <= count (snd kv)) stats ->
  process_line d (stats, logs) line = Ok (stats', logs') ->
  Forall (fun kv => 1 <= count (snd kv)) stats'.
Proof.
  intros Hpos H. unfold process_line in H.
  inv_bind H. inv_bind H.
  destruct (skipped d a0).
  - injection H as <- _. exact Hpos.
  - inv_bind H. inv_bind H.
    destruct (truthy a1 && negb (is_none a2)).
    + inv_bind H. injection H as <- _.
      eapply contribute_positive; eassumption.
    + injection H as <- _. exact Hpos.
Qed.

Lemma process_lines_positive d lines :
  forall stats logs stats' logs',
    Forall (fun kv => 1 <= count (snd kv)) stats ->
    for_each (process_line d) (stats, logs) lines = Ok (stats', logs') ->
    Forall (fun kv => 1 <= count (snd kv)) stats'.
Proof.
  induction lines as [|l lines IH]; simpl; intros stats logs stats' logs' Hpos H.
  - injection H as <- _. exact Hpos.
  - inv_bind H. destruct a as [stats1 logs1].
    eapply IH; [|exact H].
    eapply process_line_positive; eassumption.
Qed.

End ParseLogsFacts.

(** ** Runs over well-formed records *)

Section WellFormedRuns.
Context {lib : Library.t}.

Lemma log_date_of_timestamp_ok r :
  timestamp_ok r = true -> log_date_of r = Ok (record_date r).
Proof.
  destruct r as [| | | | |l|d]; simpl; try discriminate.
  unfold log_date_of. simpl.
  destruct (dict_get "@timestamp" d) as [v|]; simpl; [|reflexivity].
  destruct v as [| | | |t| |]; try discriminate. simpl.
  destruct (fromisoformat t); [reflexivity | discriminate].
Qed.

Lemma skipped_on_date d r : skipped d (record_date r) = negb (on_date d r).
Proof.
  unfold skipped, on_date. destruct d as [d|]; [|reflexivity].
  destruct (record_date r); reflexivity.
Qed.

Lemma py_get_field r k :
  timestamp_ok r = true -> py_get r k VNone = Ok (field k r).
Proof. destruct r; simpl; try discriminate. reflexivity. Qed.

(** One iteration on a record whose timestamp is readable. *)
Lemma process_line_timestamp_ok d es logs line r :
  json_loads line = Decoded r -> timestamp_ok r = true ->
  process_line d (es, logs) line =
  if on_date d r && truthy (field "url" r) && has_response_time r
  then es' <- contribute es (field "url" r) (field "response_time" r) ;;
       Ok (es', logs ++ [r])
  else Ok (es, logs ++ [r]).
Proof.
  intros Hr Hts. unfold process_line, loads. rewrite Hr. cbn [bind].
  rewrite (log_date_of_timestamp_ok r Hts). cbn [bind].
  rewrite skipped_on_date.
  destruct (on_date d r); cbn [negb andb]; [|reflexivity].
  rewrite !(py_get_field r _ Hts). cbn [bind].
  reflexivity.
Qed.

Lemma counted_url d e r : counted d e r = true -> field "url" r = VStr e.
Proof.
  unfold counted, counted_as_specified, has_url. intros H.
  destruct (field "url" r) as [| | | |s| |];
    simpl in H; rewrite ?andb_false_r in H; try discriminate H.
  destruct (s =? e)%string eqn:E.
  - apply String.eqb_eq in E. rewrite E. reflexivity.
  - simpl in H. rewrite andb_false_r in H. discriminate H.
Qed.

(** On a well-formed record the program's test is the reference one. *)
Lemma counted_iff d r e :
  url_ok r = true -> field "url" r = VStr e ->
  on_date d r && truthy (field "url" r) && has_response_time r = counted d e r.
Proof.
  intros _ Hu. unfold counted, counted_as_specified, has_url.
  rewrite Hu. simpl. rewrite String.eqb_refl.
  destruct (e =? EmptyString)%string, (on_date d r), (has_response_time r);
    reflexivity.
Qed.

Lemma not_counted_other d r e e' :
  field "url" r = VStr e -> e' <> e -> counted d e' r = false.
Proof.
  intros Hu Hne. destruct (counted d e' r) eqn:E; [|reflexivity].
  apply counted_url in E. rewrite Hu in E. injection E as ->.
  contradiction Hne. reflexivity.
Qed.

Lemma count_for_snoc d e records r :
  count_for d e (records ++ [r]) =
  count_for d e records + (if counted d e r then 1 else 0).
Proof.
  unfold count_for. rewrite filter_app, length_app. simpl.
  destruct (counted d e r); simpl; lia.
Qed.

Lemma total_for_snoc d e records r :
  total_for d e (records ++ [r]) =
  if counted d e r
  then t <- total_for d e records ;; py_add t (field "response_time" r)
  else total_for d e records.
Proof.
  unfold total_for. rewrite filter_app. simpl.
  destruct (counted d e r).
  - rewrite map_app, for_each_app. simpl.
    destruct (for_each py_add (NInt 0) _) as [t|x]; simpl; [|reflexivity].
    destruct (py_add t (field "response_time" r)); reflexivity.
  - rewrite app_nil_r. reflexivity.
Qed.

Lemma total_for_none d e records :
  count_for d e records = 0 -> total_for d e records = Ok (NInt 0).
Proof.
  unfold count_for, total_for.
  destruct (filter (counted d e) records); simpl; [reflexivity | lia].
Qed.

Lemma total_for_prefix d e l1 l2 :
  returns (total_for d e (l1 ++ l2)) = true ->
  returns (total_for d e l1) = true.
Proof.
  unfold total_for. rewrite filter_app, map_app. apply for_each_prefix.
Qed.

Lemma count_for_nonneg d e records : 0 <= count_for d e records.
Proof. unfold count_for. lia. Qed.

Lemma agrees_nil d : agrees d [] [].
Proof. intros e. reflexivity. Qed.

(** A record that counts for no endpoint leaves the agreement as it
    is. *)
Lemma agrees_skip d records es r :
  agrees d records es -> (forall e, counted d e r = false) ->
  agrees d (records ++ [r]) es.
Proof.
  intros Hag Hno e. specialize (Hag e).
  rewrite count_for_snoc, total_for_snoc, (Hno e), Z.add_0_r.
  exact Hag.
Qed.

(** A record that counts for [e0] moves the entry of [e0] along. *)
Lemma agrees_contribute d records es r e0 :
  agrees d records es ->
  counted d e0 r = true ->
  returns (total_for d e0 (records ++ [r])) = true ->
  exists es',
    contribute es (VStr e0) (field "response_time" r) = Ok es' /\
    agrees d (records ++ [r]) es'.
Proof.
  intros Hag Hc Hret.
  rewrite (contribute_eq es (VStr e0) _ eq_refl). cbn zeta.
  pose proof (Hag e0) as H0.
  rewrite total_for_snoc, Hc in Hret.
  assert (Hentry :
    total_for d e0 records =
    Ok (total_response_time
          match dd_find (VStr e0) es with Some s => s | None => new_stats end) /\
    count match dd_find (VStr e0) es with Some s => s | None => new_stats end =
    count_for d e0 records).
  { destruct (dd_find (VStr e0) es) as [s|].
    - destruct H0 as (Hcnt & Htot & _). split; [exact Htot | exact Hcnt].
    - split; [apply total_for_none; exact H0 | simpl; symmetry; exact H0]. }
  destruct Hentry as (Htot & Hcnt).
  rewrite Htot in Hret. cbn [bind] in Hret.
  destruct (returns_Ok _ Hret) as [t Ht].
  rewrite Ht. cbn [bind]. eexists. split; [reflexivity|].
  intros e. destruct (String.eqb_spec e e0) as [->|Hne].
  - rewrite (dd_find_setitem es (VStr e0) _ eq_refl). cbn [count total_response_time].
    rewrite count_for_snoc, total_for_snoc, Hc, Htot. cbn [bind].
    rewrite Hcnt. pose proof (count_for_nonneg d e0 records).
    repeat split; [exact Ht | lia].
  - rewrite (dd_find_setitem_other es e e0 _ Hne).
    rewrite count_for_snoc, total_for_snoc.
    rewrite (not_counted_other d r e0 e (counted_url _ _ _ Hc) Hne), Z.add_0_r.
    apply Hag.
Qed.

(** One iteration on a well-formed record keeps the agreement,
    provided the totals stay defined. *)
Lemma process_line_agrees d records es logs line r :
  json_loads line = Decoded r -> well_formed r = true ->
  agrees d records es ->
  (forall e, returns (total_for d e (records ++ [r])) = true) ->
  exists es',
    process_line d (es, logs) line = Ok (es', logs ++ [r]) /\
    agrees d (records ++ [r]) es'.
Proof.
  intros Hr Hwf Hag Hret.
  unfold well_formed in Hwf.
  apply andb_prop in Hwf as [Hwf Hrt]. apply andb_prop in Hwf as [Hts Hurl].
  rewrite (process_line_timestamp_ok d es logs line r Hr Hts).
  destruct (field "url" r) as [| | | |e0| |] eqn:Hu;
    try (unfold url_ok in Hurl; rewrite Hu in Hurl; discriminate Hurl).
  - simpl. rewrite andb_false_r. simpl.
    exists es. split; [reflexivity|].
    apply agrees_skip; [exact Hag|].
    intros e. unfold counted, counted_as_specified, has_url. rewrite Hu.
    simpl. apply andb_false_r.
  - rewrite <- Hu, (counted_iff d r e0 Hurl Hu).
    destruct (counted d e0 r) eqn:Hc.
    + destruct (agrees_contribute d records es r e0 Hag Hc (Hret e0))
        as (es' & Hes' & Hag').
      rewrite Hu, Hes'. cbn [bind]. exists es'. split; [reflexivity | exact Hag'].
    + exists es. split; [reflexivity|].
      apply agrees_skip; [exact Hag|].
      intros e. destruct (String.eqb_spec e e0) as [->|Hne]; [exact Hc|].
      apply (not_counted_other d r e0 e Hu Hne).
Qed.

(** The loop over well-formed lines returns, with every record kept
    and the mapping in agreement with them. *)
Lemma process_lines_agree d lines :
  forall records es logs,
    Forall (fun l => well_formed_line l = true) lines ->
    agrees d records es ->
    (forall e, returns (total_for d e (records ++ decode_all lines)) = true) ->
    exists es',
      for_each (process_line d) (es, logs) lines =
        Ok (es', logs ++ decode_all lines) /\
      agrees d (records ++ decode_all lines) es'.
Proof.
  induction lines as [|l lines IH]; intros records es logs Hwf Hag Hret.
  - simpl. rewrite !app_nil_r. exists es. split; [reflexivity | exact Hag].
  - inversion Hwf as [|? ? Hl Hwf']; subst.
    unfold well_formed_line in Hl.
    destruct (json_loads l) as [r|msg pos] eqn:Hr; [|discriminate Hl].
    assert (Hd : decode_all (l :: lines) = [r] ++ decode_all lines).
    { unfold decode_all. simpl. rewrite Hr. reflexivity. }
    rewrite Hd in *. rewrite app_assoc in Hret.
    destruct (process_line_agrees d records es logs l r Hr Hl Hag) as (es1 & H1 & Hag1).
    { intros e. eapply total_for_prefix. apply Hret. }
    destruct (IH (records ++ [r]) es1 (logs ++ [r]) Hwf' Hag1 Hret) as (es' & H' & Hag').
    exists es'. cbn [for_each]. rewrite H1. cbn [bind].
    rewrite H', <- !app_assoc. split; [reflexivity|].
    rewrite <- app_assoc in Hag'. exact Hag'.
Qed.

Lemma parse_logs_agrees fs paths d lines :
  read_all fs paths = Some lines ->
  Forall (fun l => well_formed_line l = true) lines ->
  (forall e, returns (total_for d e (decode_all lines)) = true) ->
  exists es,
    parse_logs fs paths d = Ok (es, decode_all lines) /\
    agrees d (decode_all lines) es.
Proof.
  intros Hread Hwf Hret.
  rewrite (parse_logs_read_all fs d paths lines Hread).
  apply (process_lines_agree d lines [] [] [] Hwf (agrees_nil d) Hret).
Qed.

End WellFormedRuns.

(** ** The report generators *)

Section ReportFacts.

Local Ltac inv_bind H :=
  let a := fresh "a" in
  let Ha := fresh "Ha" in
  apply bind_Ok in H; destruct H as (a & Ha & H).

(** *** Average response time *)

Lemma add_row_eq report_data item :
  AverageResponseTimeReport.add_row report_data item =
  (average <- average_of (snd item) ;;
   Ok (report_data ++ [(fst item, count (snd item), average)])).
Proof. destruct item as [endpoint s]. reflexivity. Qed.

(** The loop appends one row per item, in the order of the items. *)
Lemma add_rows_spec items :
  forall acc rows,
    for_each AverageResponseTimeReport.add_row acc items = Ok rows ->
    exists rows', rows = acc ++ rows' /\ Forall2 row_of items rows'.
Proof.
  induction items as [|item items IH]; simpl; intros acc rows H.
  - injection H as <-. exists []. rewrite app_nil_r. split; [reflexivity | constructor].
  - inv_bind H. rewrite add_row_eq in Ha. inv_bind Ha. injection Ha as <-.
    destruct (IH _ _ H) as (rows' & -> & Hall).
    exists ((fst item, count (snd item), a0) :: rows').
    rewrite <- app_assoc. split; [reflexivity|].
    constructor; [|exact Hall]. exists a0. split; [assumption | reflexivity].
Qed.

Lemma add_rows_returns items :
  Forall (fun item => returns (average_of (snd item)) = true) items ->
  forall acc, returns (for_each AverageResponseTimeReport.add_row acc items) = true.
Proof.
  induction 1 as [|item items Hi _ IH]; intros acc; simpl; [reflexivity|].
  rewrite add_row_eq. destruct (returns_Ok _ Hi) as [avg ->]. simpl. apply IH.
Qed.

Lemma Forall2_row_of_keys items rows :
  Forall2 row_of items rows ->
  map (fun row : AverageResponseTimeReport.row => fst (fst row)) rows = map fst items.
Proof.
  induction 1 as [|item row items rows (avg & _ & ->) _ IH]; simpl;
    [reflexivity | rewrite IH; reflexivity].
Qed.

Lemma row_counts_positive items rows :
  Forall2 row_of items rows ->
  Forall (fun item : value * stats => 1 <= count (snd item)) items ->
  Forall (fun row : AverageResponseTimeReport.row => 1 <= snd (fst row)) rows.
Proof.
  induction 1 as [|item row items rows (avg & _ & ->) _ IH]; intros Hpos;
    [constructor|].
  inversion Hpos as [|? ? Hitem Hpos']; subst.
  constructor; [exact Hitem | apply IH; exact Hpos'].
Qed.

(** *** User agents *)

Lemma py_get_agent r :
  agent_ok r = true ->
  py_get r "http_user_agent" (VStr "Unknown") = Ok (VStr (agent_of r)).
Proof.
  destruct r as [| | | | |l|d]; simpl; try discriminate.
  destruct (dict_get "http_user_agent" d) as [v|]; [|reflexivity].
  destruct v; try discriminate. reflexivity.
Qed.

(** One iteration stores the incremented tally under the agent. *)
Lemma count_agent_eq d r :
  agent_ok r = true ->
  UserAgentReport.count_agent d r =
  Ok (dd_setitem d (VStr (agent_of r))
        (match dd_find (VStr (agent_of r)) d with Some n => n | None => 0 end + 1)).
Proof.
  intros Hr. unfold UserAgentReport.count_agent.
  rewrite (py_get_agent r Hr). cbn [bind]. unfold dd_getitem. cbn [hashable].
  destruct (dd_find (VStr (agent_of r)) d) as [n|] eqn:E; cbn [bind].
  - reflexivity.
  - rewrite (dd_setitem_materialised d (VStr (agent_of r)) 0 _ eq_refl E).
    reflexivity.
Qed.

Lemma total_count_app (d1 d2 : list (value * Z)) :
  total_count (d1 ++ d2) = total_count d1 + total_count d2.
Proof.
  unfold total_count. induction d1 as [|[k n] d1 IH]; simpl; [reflexivity|].
  rewrite IH. lia.
Qed.

Lemma total_count_replace (d : list (value * Z)) k n v :
  dd_find k d = Some n ->
  total_count (dd_replace k v d) = total_count d - n + v.
Proof.
  unfold total_count.
  induction d as [|[k' w] d IH]; simpl; [discriminate|].
  destruct (key_eqb k' k); simpl.
  - intros [= ->]. lia.
  - intros H. rewrite (IH H). lia.
Qed.

(** Each iteration adds one to the sum of the tallies. *)
Lemma total_count_setitem (d : list (value * Z)) k :
  total_count
    (dd_setitem d k (match dd_find k d with Some n => n | None => 0 end + 1)) =
  total_count d + 1.
Proof.
  unfold dd_setitem. destruct (dd_find k d) as [n|] eqn:E.
  - rewrite (total_count_replace d k n _ E). lia.
  - rewrite total_count_app. unfold total_count. simpl. lia.
Qed.

(** *** First appearances *)

Lemma in_remove_iff (a x : string) (l : list string) :
  In x (remove string_dec a l) <-> In x l /\ x <> a.
Proof.
  split.
  - apply in_remove.
  - intros [H1 H2]. apply in_in_remove; assumption.
Qed.

Lemma remove_app_str (a : string) (l1 l2 : list string) :
  remove string_dec a (l1 ++ l2) =
  remove string_dec a l1 ++ remove string_dec a l2.
Proof. apply remove_app. Qed.

Lemma NoDup_remove_str (a : string) (l : list string) :
  NoDup l -> NoDup (remove string_dec a l).
Proof.
  induction 1 as [|x l Hx _ IH]; simpl; [constructor|].
  destruct (string_dec a x); [exact IH|].
  constructor; [|exact IH].
  intros Hin. apply in_remove in Hin. destruct Hin as [Hin _]. contradiction.
Qed.

Lemma distinct_In (l : list string) (a : string) : In a (distinct l) <-> In a l.
Proof.
  induction l as [|x l IH]; simpl; [tauto|].
  rewrite in_remove_iff, IH.
  destruct (string_dec x a) as [->|Hne]; [tauto|].
  split; [tauto|]. intros [H|H]; [tauto|]. right. split; [exact H | congruence].
Qed.

Lemma distinct_NoDup (l : list string) : NoDup (distinct l).
Proof.
  induction l as [|x l IH]; simpl; constructor.
  - apply remove_In.
  - apply NoDup_remove_str. exact IH.
Qed.

(** Appending a value adds it to the distinct ones when it is new. *)
Lemma distinct_snoc (l : list string) (a : string) :
  distinct (l ++ [a]) =
  if in_dec string_dec a l then distinct l else distinct l ++ [a].
Proof.
  induction l as [|x l IH]; simpl.
  - destruct (string_dec a a); [reflexivity | contradiction].
  - rewrite IH.
    destruct (in_dec string_dec a l) as [Hin|Hnin].
    + destruct (string_dec x a); reflexivity.
    + rewrite remove_app_str. simpl.
      destruct (string_dec x a) as [->|Hne]; simpl.
      * rewrite app_nil_r. reflexivity.
      * reflexivity.
Qed.

(** *** The tally loop *)

Lemma find_row_in (f : string -> Z) (l : list string) (a : string) :
  In a l -> dd_find (VStr a) (map (fun x => (VStr x, f x)) l) = Some (f a).
Proof.
  induction l as [|x l IH]; simpl; [contradiction|].
  destruct (String.eqb_spec x a) as [->|Hne]; [reflexivity|].
  intros [H|H]; [contradiction | exact (IH H)].
Qed.

Lemma find_row_notin (f : string -> Z) (l : list string) (a : string) :
  ~ In a l -> dd_find (VStr a) (map (fun x => (VStr x, f x)) l) = None.
Proof.
  induction l as [|x l IH]; simpl; [reflexivity|].
  intros H. destruct (String.eqb_spec x a) as [->|Hne]; [tauto|].
  apply IH. tauto.
Qed.

(** Replacing the tally of [a] in a table without repeated keys. *)
Lemma replace_row (f g : string -> Z) (l : list string) (a : string) :
  NoDup l -> (forall x, x <> a -> g x = f x) ->
  dd_replace (VStr a) (g a) (map (fun x => (VStr x, f x)) l) =
  map (fun x => (VStr x, g x)) l.
Proof.
  intros Hnd Hg.
  induction Hnd as [|x l Hx Hnd IH]; simpl; [reflexivity|].
  destruct (String.eqb_spec x a) as [->|Hne].
  - f_equal. apply map_ext_in. intros y Hy.
    rewrite Hg; [reflexivity|]. intros ->. contradiction.
  - rewrite IH, (Hg x Hne). reflexivity.
Qed.

Lemma count_occ_snoc (l : list string) (a x : string) :
  count_occ string_dec (l ++ [a]) x =
  (count_occ string_dec l x + if string_dec a x then 1 else 0)%nat.
Proof.
  rewrite count_occ_app. simpl. destruct (string_dec a x); reflexivity.
Qed.

(** One iteration takes the reference report of the agents seen so far
    to that of one agent more. *)
Lemma count_agent_rows (seen : list string) (r : value) :
  agent_ok r = true ->
  UserAgentReport.count_agent (agent_rows seen) r =
  Ok (agent_rows (seen ++ [agent_of r])).
Proof.
  intros Hr. rewrite (count_agent_eq _ r Hr). f_equal.
  set (a := agent_of r). unfold agent_rows, dd_setitem.
  rewrite distinct_snoc.
  destruct (in_dec string_dec a seen) as [Hin|Hnin].
  - rewrite (find_row_in _ _ a) by (apply distinct_In; exact Hin).
    rewrite <- (replace_row
                  (fun x => Z.of_nat (count_occ string_dec seen x))
                  (fun x => Z.of_nat (count_occ string_dec (seen ++ [a]) x))
                  (distinct seen) a (distinct_NoDup seen)).
    + f_equal. rewrite count_occ_snoc.
      destruct (string_dec a a); [lia | contradiction].
    + intros x Hx. rewrite count_occ_snoc.
      destruct (string_dec a x); [congruence|]. f_equal. lia.
  - rewrite (find_row_notin _ _ a) by (rewrite distinct_In; exact Hnin).
    rewrite map_app. simpl. f_equal.
    + apply map_ext_in. intros x Hx. rewrite count_occ_snoc.
      destruct (string_dec a x) as [<-|_]; [|f_equal; lia].
      exfalso. apply Hnin. apply (proj1 (distinct_In seen a)). exact Hx.
    + rewrite count_occ_snoc.
      rewrite (proj1 (count_occ_not_In string_dec seen a) Hnin).
      destruct (string_dec a a); [reflexivity | contradiction].
Qed.

Lemma count_agents_rows (logs : list value) :
  forall seen,
    Forall (fun r => agent_ok r = true) logs ->
    for_each UserAgentReport.count_agent (agent_rows seen) logs =
    Ok (agent_rows (seen ++ map agent_of logs)).
Proof.
  induction logs as [|r logs IH]; intros seen Hall; simpl.
  - rewrite app_nil_r. reflexivity.
  - inversion Hall as [|? ? Hr Hall']; subst.
    rewrite (count_agent_rows seen r Hr). cbn [bind].
    rewrite (IH _ Hall'), <- app_assoc. reflexivity.
Qed.

(** The loop adds one to the sum of the tallies per record. *)
Lemma count_agents_total (logs : list value) :
  forall d d',
    Forall (fun r => agent_ok r = true) logs ->
    for_each UserAgentReport.count_agent d logs = Ok d' ->
    total_count d' = total_count d + Z.of_nat (List.length logs).
Proof.
  induction logs as [|r logs IH]; intros d d' Hall H; simpl in H.
  - injection H as <-. simpl. lia.
  - inversion Hall as [|? ? Hr Hall']; subst.
    rewrite (count_agent_eq d r Hr) in H. cbn [bind] in H.
    rewrite (IH _ _ Hall' H), total_count_setitem.
    cbn [List.length]. lia.
Qed.

Lemma rows_of_items (d : list (value * Z)) :
  map (fun '(ua, count) => (ua, count)) d = d.
Proof.
  induction d as [|[k n] d IH]; simpl; [reflexivity | rewrite IH; reflexivity].
Qed.

Lemma generate_agent_rows self logs :
  Forall (fun r => agent_ok r = true) logs ->
  UserAgentReport.generate self logs =
  Ok (agent_rows (map agent_of logs), Report.title self).
Proof.
  intros Hall. unfold UserAgentReport.generate.
  change (@nil (value * Z)) with (agent_rows []).
  rewrite (count_agents_rows logs [] Hall). cbn [bind app].
  rewrite rows_of_items. reflexivity.
Qed.

End ReportFacts.

(** ** Bridging lemmas *)

Section Bridges.
Context {lib : Library.t}.

Lemma forallb_Forall_true {A} (f : A -> bool) (l : list A) :
  forallb f l = true -> Forall (fun x => f x = true) l.
Proof.
  intros H. apply Forall_forall. apply forallb_forall. exact H.
Qed.

Lemma counted_in_endpoints d e r records :
  In r records -> counted d e r = true -> In e (endpoints records).
Proof.
  intros Hin Hc. unfold endpoints. apply in_flat_map.
  exists r. split; [exact Hin|].
  rewrite (counted_url d e r Hc). left. reflexivity.
Qed.

(** The sums over the urls that occur are all the sums there are. *)
Lemma totals_defined_all d records :
  totals_defined d records = true ->
  forall e, returns (total_for d e records) = true.
Proof.
  intros H e. unfold totals_defined in H.
  destruct (in_dec string_dec e (endpoints records)) as [Hin|Hnin].
  - rewrite forallb_forall in H. apply H. exact Hin.
  - unfold total_for.
    assert (Hnone : filter (counted d e) records = []).
    { destruct (filter (counted d e) records) as [|r rs] eqn:E; [reflexivity|].
      exfalso. apply Hnin.
      assert (Hr : In r (filter (counted d e) records)) by (rewrite E; left; reflexivity).
      apply filter_In in Hr. destruct Hr as [Hr Hc].
      exact (counted_in_endpoints d e r records Hr Hc). }
    rewrite Hnone. reflexivity.
Qed.

(** The date the program computes is the date of the record. *)
Lemma log_date_of_Ok r od : log_date_of r = Ok od -> od = record_date r.
Proof.
  unfold log_date_of.
  destruct r as [| | | |s|l|d]; simpl; try discriminate.
  - destruct (is_substring "@timestamp" s); simpl; [discriminate|].
    intros [= <-]. reflexivity.
  - destruct (existsb (str_eqb "@timestamp") l); simpl; [discriminate|].
    intros [= <-]. reflexivity.
  - destruct (dict_get "@timestamp" d) as [v|]; simpl.
    + destruct v as [| | | |t| |]; simpl; try discriminate.
      destruct (fromisoformat t); simpl; [|discriminate].
      intros [= <-]. reflexivity.
    + intros [= <-]. reflexivity.
Qed.

Lemma on_date_timestamp_ok d r : on_date (Some d) r = true -> timestamp_ok r = true.
Proof.
  unfold on_date, record_date, timestamp_ok.
  destruct r as [| | | | | |fields]; try discriminate.
  destruct (dict_get "@timestamp" fields) as [v|]; [|discriminate].
  destruct v as [| | | |t| |]; try discriminate.
  destruct (fromisoformat t); [reflexivity | discriminate].
Qed.

(** A record on the filter date is treated as without filter. *)
Lemma process_line_on_date d state line :
  (forall r, json_loads line = Decoded r -> on_date (Some d) r = true) ->
  process_line (Some d) state line = process_line None state line.
Proof.
  intros H. destruct state as [es logs].
  destruct (json_loads line) as [r|msg pos] eqn:Hr.
  - specialize (H r eq_refl).
    rewrite !(process_line_timestamp_ok _ es logs line r Hr (on_date_timestamp_ok d r H)).
    rewrite H. reflexivity.
  - rewrite !(process_line_invalid _ _ line msg pos Hr). reflexivity.
Qed.

(** A record off the filter date changes nothing but [logs]. *)
Lemma process_line_off_date d es logs line es' logs' :
  process_line (Some d) (es, logs) line = Ok (es', logs') ->
  (forall r, json_loads line = Decoded r -> on_date (Some d) r = false) ->
  es' = es.
Proof.
  intros H Hoff. unfold process_line, loads in H.
  destruct (json_loads line) as [r|msg pos]; [|discriminate H].
  specialize (Hoff r eq_refl). cbn [bind] in H.
  destruct (log_date_of r) as [od|x] eqn:Hd; [|discriminate H].
  apply log_date_of_Ok in Hd. subst od. cbn [bind] in H.
  rewrite skipped_on_date, Hoff in H. simpl in H.
  injection H as <- _. reflexivity.
Qed.

Lemma In_decode_all r lines :
  In r (decode_all lines) <-> exists l, In l lines /\ json_loads l = Decoded r.
Proof.
  unfold decode_all. rewrite in_flat_map. split.
  - intros (l & Hl & Hr). exists l. split; [exact Hl|].
    destruct (json_loads l); [|contradiction].
    destruct Hr as [->|[]]. reflexivity.
  - intros (l & Hl & Hr). exists l. split; [exact Hl|].
    rewrite Hr. left. reflexivity.
Qed.

Lemma process_lines_off_date d lines :
  forall es logs es' logs',
    for_each (process_line (Some d)) (es, logs) lines = Ok (es', logs') ->
    (forall r, In r (decode_all lines) -> on_date (Some d) r = false) ->
    es' = es.
Proof.
  induction lines as [|l lines IH]; cbn [for_each]; intros es logs es' logs' H Hoff.
  - injection H as <- _. reflexivity.
  - apply bind_Ok in H. destruct H as ([es1 logs1] & H1 & H).
    assert (es1 = es) as ->.
    { eapply process_line_off_date; [exact H1|].
      intros r Hr. apply Hoff. apply In_decode_all.
      exists l. split; [left; reflexivity | exact Hr]. }
    eapply IH; [exact H|].
    intros r Hr. apply Hoff. apply In_decode_all in Hr.
    destruct Hr as (l' & Hl' & Hr). apply In_decode_all.
    exists l'. split; [right; exact Hl' | exact Hr].
Qed.

(** With readable timestamps off the filter date the loop returns. *)
Lemma process_lines_off_date_returns d lines :
  forall es logs,
    Forall (fun l => decodes l = true) lines ->
    (forall r, In r (decode_all lines) ->
               timestamp_ok r = true /\ on_date (Some d) r = false) ->
    for_each (process_line (Some d)) (es, logs) lines =
    Ok (es, logs ++ decode_all lines).
Proof.
  induction lines as [|l lines IH]; intros es logs Hdec Hoff.
  - simpl. rewrite app_nil_r. reflexivity.
  - inversion Hdec as [|? ? Hl Hdec']; subst.
    unfold decodes in Hl. destruct (json_loads l) as [r|] eqn:Hr; [|discriminate Hl].
    assert (Hd : decode_all (l :: lines) = r :: decode_all lines).
    { unfold decode_all. simpl. rewrite Hr. reflexivity. }
    rewrite Hd in *.
    destruct (Hoff r (or_introl eq_refl)) as [Hts Hod].
    cbn [for_each].
    rewrite (process_line_timestamp_ok _ es logs l r Hr Hts), Hod. cbn [andb bind].
    rewrite IH; [rewrite <- app_assoc; reflexivity | exact Hdec' |].
    intros r' Hr'. apply Hoff. right. exact Hr'.
Qed.

End Bridges.

(** ** Keys of the returned mapping *)

Section KeyFacts.
Context {lib : Library.t}.

Lemma dd_find_key {V} (d : list (value * V)) (e : string) :
  In (VStr e) (map fst d) -> dd_find (VStr e) d <> None.
Proof.
  induction d as [|[k v] d IH]; simpl; [contradiction|].
  destruct (key_eqb k (VStr e)) eqn:E; [discriminate|].
  intros [Hk|Hin]; [|exact (IH Hin)].
  subst k. simpl in E. rewrite String.eqb_refl in E. discriminate E.
Qed.

(** A well-formed record is stored under its url, a string. *)
Lemma process_line_keys d es logs line es' logs' :
  well_formed_line line = true ->
  Forall (fun k => exists e, k = VStr e) (map fst es) ->
  process_line d (es, logs) line = Ok (es', logs') ->
  Forall (fun k => exists e, k = VStr e) (map fst es').
Proof.
  intros Hwf Hkeys H. unfold well_formed_line in Hwf.
  destruct (json_loads line) as [r|msg pos] eqn:Hr; [|discriminate Hwf].
  unfold well_formed in Hwf.
  apply andb_prop in Hwf as [Hwf _]. apply andb_prop in Hwf as [Hts Hurl].
  rewrite (process_line_timestamp_ok d es logs line r Hr Hts) in H.
  destruct (on_date d r && truthy (field "url" r) && has_response_time r) eqn:Hc.
  - apply bind_Ok in H. destruct H as (es1 & H1 & H). injection H as <- _.
    unfold url_ok in Hurl.
    destruct (field "url" r) as [| | | |e0| |] eqn:Hu; try discriminate Hurl.
    + simpl in Hc. rewrite andb_false_r in Hc. discriminate Hc.
    + rewrite (contribute_eq es (VStr e0) _ eq_refl) in H1. cbn zeta in H1.
      apply bind_Ok in H1. destruct H1 as (t & _ & H1). injection H1 as <-.
      rewrite dd_setitem_keys. destruct (dd_find (VStr e0) es); [exact Hkeys|].
      apply Forall_app. split; [exact Hkeys|].
      constructor; [exists e0; reflexivity | constructor].
  - injection H as <- _. exact Hkeys.
Qed.

Lemma process_lines_keys d lines :
  forall es logs es' logs',
    Forall (fun l => well_formed_line l = true) lines ->
    Forall (fun k => exists e, k = VStr e) (map fst es) ->
    for_each (process_line d) (es, logs) lines = Ok (es', logs') ->
    Forall (fun k => exists e, k = VStr e) (map fst es').
Proof.
  induction lines as [|l lines IH]; cbn [for_each];
    intros es logs es' logs' Hwf Hkeys H.
  - injection H as <- _. exact Hkeys.
  - inversion Hwf as [|? ? Hl Hwf']; subst.
    apply bind_Ok in H. destruct H as ([es1 logs1] & H1 & H).
    eapply IH; [exact Hwf' | | exact H].
    eapply process_line_keys; eassumption.
Qed.

(** The records tallied under ["Unknown"] are those without agent and
    those that spell it out. *)
Lemma count_unknown (logs : list value) :
  count_occ string_dec (map agent_of logs) "Unknown" =
  (List.length (filter lacks_agent logs) +
   List.length (filter names_unknown logs))%nat.
Proof.
  induction logs as [|r logs IH]; simpl; [reflexivity|].
  unfold lacks_agent at 1, names_unknown at 1.
  destruct (has_field "http_user_agent" r) eqn:Hf; simpl.
  - destruct (string_dec (agent_of r) "Unknown") as [E|E].
    + rewrite E. simpl. rewrite IH. lia.
    + destruct (String.eqb_spec (agent_of r) "Unknown") as [E'|_];
        [contradiction | exact IH].
  - assert (E : agent_of r = "Unknown").
    { unfold has_field in Hf. unfold agent_of.
      destruct r as [| | | | | |fields]; try reflexivity.
      destruct (dict_get "http_user_agent" fields); [discriminate Hf | reflexivity]. }
    destruct (string_dec (agent_of r) "Unknown"); [|contradiction].
    simpl. rewrite IH. reflexivity.
Qed.

Lemma lacks_agent_unknown (r : value) :
  lacks_agent r = true -> agent_of r = "Unknown".
Proof.
  unfold lacks_agent, has_field, agent_of.
  destruct r as [| | | | | |fields]; try reflexivity.
  destruct (dict_get "http_user_agent" fields); [discriminate | reflexivity].
Qed.

Lemma agent_rows_keys (agents : list string) :
  map fst (agent_rows agents) = map VStr (distinct agents).
Proof. unfold agent_rows. rewrite map_map. reflexivity. Qed.

Lemma NoDup_map_VStr (l : list string) : NoDup l -> NoDup (map VStr l).
Proof.
  induction 1 as [|x l Hx _ IH]; simpl; constructor; [|exact IH].
  intros Hin. apply in_map_iff in Hin. destruct Hin as (y & [= ->] & Hy).
  contradiction.
Qed.

(** Sums of integers are integers, of any size. *)
Lemma for_each_py_add_int (vs : list value) :
  Forall (fun v => exists n, as_num v = Some (NInt n)) vs ->
  forall a, exists b, for_each py_add (NInt a) vs = Ok (NInt b).
Proof.
  induction 1 as [|v vs (n & Hv) _ IH]; intros a; simpl.
  - exists a. reflexivity.
  - unfold py_add. rewrite Hv. simpl. apply IH.
Qed.

(** Without floats among the response times every total is defined. *)
Lemma integer_totals_defined d (records : list value) :
  forallb well_formed records = true ->
  forallb integer_time records = true ->
  totals_defined d records = true.
Proof.
  intros Hwf Hint. unfold totals_defined. apply forallb_forall. intros e _.
  unfold total_for.
  destruct (for_each_py_add_int
              (map (field "response_time") (filter (counted d e) records))) with (a := 0)
    as [b Hb]; [|rewrite Hb; reflexivity].
  apply Forall_forall. intros v Hv. apply in_map_iff in Hv.
  destruct Hv as (r & <- & Hr). apply filter_In in Hr. destruct Hr as [Hr Hc].
  rewrite forallb_forall in Hwf, Hint.
  specialize (Hwf r Hr). specialize (Hint r Hr).
  unfold well_formed in Hwf. apply andb_prop in Hwf as [_ Hrt].
  unfold counted, counted_as_specified, has_response_time in Hc.
  unfold response_time_ok in Hrt. unfold integer_time in Hint.
  destruct (field "response_time" r) as [|b'|n|f|t|l|fields]; simpl in *;
    try discriminate.
  - rewrite !andb_false_r in Hc. discriminate Hc.
  - exists (Z.b2z b'). reflexivity.
  - exists n. reflexivity.
Qed.

(** A run over a file with an undecodable line does not return. *)
Lemma undecodable_fails fs paths d path lines l :
  In path paths -> fs path = Some lines -> In l lines -> decodes l = false ->
  returns (parse_logs fs paths d) = false.
Proof.
  intros Hpath Hfs Hl Hdec. unfold parse_logs.
  apply (for_each_fails (process_file fs d) paths path Hpath).
  intros state. unfold process_file. rewrite Hfs.
  apply (for_each_fails (process_line d) lines l Hl).
  intros st. unfold decodes in Hdec.
  destruct (json_loads l) as [r|msg pos] eqn:E; [discriminate Hdec|].
  rewrite (process_line_invalid d st l msg pos E). reflexivity.
Qed.

Lemma nth_error_firstn_split {A} (l : list A) (n : nat) (x : A) :
  nth_error l n = Some x -> l = firstn n l ++ x :: skipn (S n) l.
Proof.
  revert n. induction l as [|y l IH]; intros [|n]; simpl; try discriminate.
  - intros [= ->]. reflexivity.
  - intros H. f_equal. exact (IH n H).
Qed.

Lemma nth_error_In_some {A} (l : list A) (n : nat) (x : A) :
  nth_error l n = Some x -> In x l.
Proof. apply nth_error_In. Qed.

(** Lines with the same recognized fields give the same statistics. *)
Lemma process_lines_alike d lines lines' :
  Forall2 alike lines lines' ->
  forall es logs logs',
    stats_of (for_each (process_line d) (es, logs) lines) =
    stats_of (for_each (process_line d) (es, logs') lines').
Proof.
  induction 1 as [|l l' lines lines' Hl _ IH]; intros es logs logs';
    [reflexivity|].
  destruct Hl as (r & r' & Hr & Hr' & Hts & Hts' & Hd & Hu & Ht).
  cbn [for_each].
  rewrite (process_line_timestamp_ok d es logs l r Hr Hts).
  rewrite (process_line_timestamp_ok d es logs' l' r' Hr' Hts').
  assert (Hon : on_date d r = on_date d r')
    by (unfold on_date; rewrite Hd; reflexivity).
  assert (Hrt : has_response_time r = has_response_time r')
    by (unfold has_response_time; rewrite Ht; reflexivity).
  rewrite Hon, Hrt, Hu, Ht.
  destruct (on_date d r' && truthy (field "url" r') && has_response_time r').
  - destruct (contribute es (field "url" r') (field "response_time" r')) as [es1|e];
      cbn [bind]; [apply IH | reflexivity].
  - cbn [bind]. apply IH.
Qed.

End KeyFacts.

(* ================================================================= *)
(** * The claims *)

Section Claims.
Context {lib : Library.t}.

(** C2.  Whatever the filter date, the record list [parse_logs]
    returns holds every decoded line of every file, in file order then
    line order, and is as long as the lines are many; the date filter
    removes nothing from it.  On well-formed lines the run does return,
    with that list. *)
Theorem logs_keep_every_record fs paths lines :
  read_all fs paths = Some lines ->
  forallb decodes lines = true ->
  (forall d es logs,
      parse_logs fs paths d = Ok (es, logs) ->
      logs = decode_all lines /\ List.length logs = List.length lines) /\
  (forall d,
      forallb well_formed_line lines = true ->
      totals_defined d (decode_all lines) = true ->
      exists es, parse_logs fs paths d = Ok (es, decode_all lines)).
Proof.
  intros Hread Hdec. apply forallb_Forall_true in Hdec. split.
  - intros d es logs H.
    rewrite (parse_logs_read_all fs d paths lines Hread) in H.
    destruct (process_lines_logs d lines _ _ _ _ H) as [Hlogs _].
    simpl in Hlogs. subst logs.
    split; [reflexivity | apply decode_all_length; exact Hdec].
  - intros d Hwf Htot.
    destruct (parse_logs_agrees fs paths d lines Hread
                (forallb_Forall_true _ _ Hwf) (totals_defined_all d _ Htot))
      as (es & Hes & _).
    exists es. exact Hes.
Qed.

(** C5.  When every record is on date [d], the run filtered on [d]
    gives what the unfiltered run gives; when no record is on [d], the
    filtered run leaves the endpoint statistics empty, and returns so
    once every line decodes to a record with a readable timestamp. *)
Theorem date_filter_scenarios fs paths lines d :
  read_all fs paths = Some lines ->
  (forallb (on_date (Some d)) (decode_all lines) = true ->
   parse_logs fs paths (Some d) = parse_logs fs paths None) /\
  (forallb (fun r => negb (on_date (Some d) r)) (decode_all lines) = true ->
   (forall es logs, parse_logs fs paths (Some d) = Ok (es, logs) -> es = []) /\
   (forallb decodes lines = true ->
    forallb timestamp_ok (decode_all lines) = true ->
    parse_logs fs paths (Some d) = Ok ([], decode_all lines))).
Proof.
  intros Hread.
  rewrite !(parse_logs_read_all fs _ paths lines Hread). split.
  - intros Hon. rewrite forallb_forall in Hon.
    apply for_each_ext. intros state l Hl.
    apply process_line_on_date. intros r Hr.
    apply Hon. apply In_decode_all. exists l. split; assumption.
  - intros Hoff. rewrite forallb_forall in Hoff.
    assert (Hoff' : forall r, In r (decode_all lines) -> on_date (Some d) r = false).
    { intros r Hr. apply negb_true_iff. apply Hoff. exact Hr. }
    split.
    + intros es logs H.
      apply (process_lines_off_date d lines _ _ _ _ H Hoff').
    + intros Hdec Hts. rewrite forallb_forall in Hts.
      apply (process_lines_off_date_returns d lines [] []
               (forallb_Forall_true _ _ Hdec)).
      intros r Hr. split; [apply Hts; exact Hr | apply Hoff'; exact Hr].
Qed.


(** C10.  Every key of the mapping [parse_logs] returns has a count of
    at least one: the average of each of its entries is the quotient,
    never the zero of an entry without requests, and no row of the
    average report shows a count below one. *)
Theorem endpoint_counts_positive fs paths d es logs :
  parse_logs fs paths d = Ok (es, logs) ->
  Forall (fun item => 1 <= count (snd item)) es /\
  Forall (fun item =>
            average_of (snd item) =
            py_truediv (total_response_time (snd item)) (count (snd item))) es /\
  (forall self rows title,
      AverageResponseTimeReport.generate self es = Ok (rows, title) ->
      Forall (fun row : AverageResponseTimeReport.row => 1 <= snd (fst row)) rows).
Proof.
  intros H.
  assert (Hpos : Forall (fun item : value * stats => 1 <= count (snd item)) es).
  { unfold parse_logs in H.
    assert (Hret : returns (for_each (process_file fs d) ([], []) paths) = true)
      by (rewrite H; reflexivity).
    destruct (process_files_returns fs d paths _ Hret) as [lines Hread].
    rewrite (process_files_read_all fs d paths lines _ Hread) in H.
    apply (process_lines_positive d lines [] [] es logs); [constructor | exact H]. }
  split; [exact Hpos|]. split.
  - apply Forall_forall. intros item Hin.
    rewrite Forall_forall in Hpos. specialize (Hpos item Hin).
    unfold average_of.
    destruct (Z.ltb_spec 0 (count (snd item))); [reflexivity | lia].
  - intros self rows title Hgen.
    unfold AverageResponseTimeReport.generate in Hgen.
    apply bind_Ok in Hgen. destruct Hgen as (rows0 & Hrows & Hgen).
    injection Hgen as <- _.
    destruct (add_rows_spec es [] rows0 Hrows) as (rows' & -> & Hall).
    simpl. apply (row_counts_positive es rows' Hall Hpos).
Qed.


(** C1, as amended.  On well-formed lines whose running totals stay
    defined, [parse_logs] returns, and its mapping holds for each
    endpoint the number of the records with that url, non-empty, and a
    response time, on the filter date when one is given (a record
    without timestamp is then left out), with the sum of their response
    times; an endpoint no record counts for has no key, and the mapping
    has no other keys. *)
Theorem endpoint_stats_counts fs paths d lines :
  read_all fs paths = Some lines ->
  forallb well_formed_line lines = true ->
  totals_defined d (decode_all lines) = true ->
  exists es logs,
    parse_logs fs paths d = Ok (es, logs) /\
    (forall e,
        count_in es e = count_for d e (decode_all lines) /\
        match dd_find (VStr e) es with
        | Some s => total_for d e (decode_all lines) = Ok (total_response_time s)
        | None => count_for d e (decode_all lines) = 0
        end) /\
    Forall (fun item =>
              exists e, fst item = VStr e /\ 0 < count_for d e (decode_all lines))
      es.
Proof.
  intros Hread Hwf Htot. apply forallb_Forall_true in Hwf.
  destruct (parse_logs_agrees fs paths d lines Hread Hwf
              (totals_defined_all d _ Htot)) as (es & Hes & Hag).
  exists es, (decode_all lines). split; [exact Hes|]. split.
  - intros e. specialize (Hag e). unfold count_in.
    destruct (dd_find (VStr e) es) as [s|].
    + destruct Hag as (Hc & Ht & _). split; assumption.
    + split; [symmetry; exact Hag | exact Hag].
  - rewrite (parse_logs_read_all fs d paths lines Hread) in Hes.
    pose proof (process_lines_keys d lines [] [] es _ Hwf (Forall_nil _) Hes) as Hkeys.
    apply Forall_forall. intros [k s] Hin.
    rewrite Forall_forall in Hkeys.
    destruct (Hkeys k (in_map fst _ _ Hin)) as [e ->].
    exists e. split; [reflexivity|].
    specialize (Hag e).
    destruct (dd_find (VStr e) es) as [s'|] eqn:E.
    + destruct Hag as (Hc & _ & Hpos). lia.
    + exfalso. apply (dd_find_key es e); [|exact E].
      apply (in_map fst _ _ Hin).
Qed.

(** C3, as amended.  For every mapping whose quotients are defined, the
    average report has the title of the report object (["Average
    Response Time Report"] for the one [main] builds) and one row per
    key, in the order of the keys; the row of an entry shows its key, its
    count and its average, the quotient [total_response_time / count]
    as Python computes it when the count is positive and the integer [0]
    otherwise. *)
Theorem average_report_rows self es :
  forallb (fun item => returns (average_of (snd item))) es = true ->
  exists rows,
    AverageResponseTimeReport.generate self es = Ok (rows, Report.title self) /\
    Forall2 row_of es rows /\
    map (fun row : AverageResponseTimeReport.row => fst (fst row)) rows =
      map fst es /\
    select_report "average" =
      Some (Average {| Report.title := "Average Response Time Report" |}).
Proof.
  intros Hdef. apply forallb_Forall_true in Hdef.
  pose proof (add_rows_returns es Hdef []) as Hret.
  destruct (returns_Ok _ Hret) as [rows Hrows].
  destruct (add_rows_spec es [] rows Hrows) as (rows' & -> & Hall).
  exists rows'. unfold AverageResponseTimeReport.generate.
  rewrite Hrows. simpl. repeat split.
  - exact Hall.
  - apply Forall2_row_of_keys. exact Hall.
Qed.

(** C4.  For every list of records with a string or no agent, the agent
    report has the title of the report object (["User Agent Report"] for
    the one [main] builds) and exactly one row per distinct agent, in
    the order the agents first appear in the list, each with the number
    of its records; the counts add up to the length of the list. *)
Theorem user_agent_report_rows self logs :
  forallb agent_ok logs = true ->
  UserAgentReport.generate self logs =
    Ok (agent_rows (map agent_of logs), Report.title self) /\
  select_report "user-agent" =
    Some (UserAgent {| Report.title := "User Agent Report" |}) /\
  NoDup (map fst (agent_rows (map agent_of logs))) /\
  (forall a, In (VStr a) (map fst (agent_rows (map agent_of logs))) <->
             In a (map agent_of logs)) /\
  total_count (agent_rows (map agent_of logs)) = Z.of_nat (List.length logs).
Proof.
  intros Hok. apply forallb_Forall_true in Hok.
  split; [apply generate_agent_rows; exact Hok|].
  split; [reflexivity|].
  split; [rewrite agent_rows_keys; apply NoDup_map_VStr, distinct_NoDup|].
  split.
  - intros a. rewrite agent_rows_keys, in_map_iff. split.
    + intros (x & [= ->] & Hx). apply distinct_In. exact Hx.
    + intros Ha. exists a. split; [reflexivity | apply distinct_In; exact Ha].
  - pose proof (count_agents_rows logs [] Hok) as Hrun.
    change (agent_rows []) with (@nil (value * Z)) in Hrun.
    cbn [app] in Hrun.
    rewrite (count_agents_total logs [] _ Hok Hrun).
    reflexivity.
Qed.

(** C8.  A record without [http_user_agent] is tallied under the agent
    ["Unknown"]: the row of ["Unknown"] counts the records without the
    field together with those that spell it out.  The default is taken
    when the report reads the record: the records [parse_logs] stores are
    the decoder's values as they are. *)
Theorem missing_agent_counts_as_unknown self logs :
  forallb agent_ok logs = true ->
  existsb lacks_agent logs = true ->
  exists rows,
    UserAgentReport.generate self logs = Ok (rows, Report.title self) /\
    (forall r, In r logs -> lacks_agent r = true -> agent_of r = "Unknown") /\
    dd_find (VStr "Unknown") rows =
      Some (Z.of_nat (List.length (filter lacks_agent logs) +
                      List.length (filter names_unknown logs))) /\
    (forall fs paths d lines es logs',
        read_all fs paths = Some lines ->
        parse_logs fs paths d = Ok (es, logs') ->
        forall r, In r logs' ->
                  exists line, In line lines /\ json_loads line = Decoded r).
Proof.
  intros Hok Hlack. apply forallb_Forall_true in Hok.
  exists (agent_rows (map agent_of logs)).
  split; [apply generate_agent_rows; exact Hok|].
  split; [intros r _ Hr; apply lacks_agent_unknown; exact Hr|].
  split.
  - unfold agent_rows. rewrite find_row_in.
    + rewrite count_unknown. reflexivity.
    + apply distinct_In. apply existsb_exists in Hlack.
      destruct Hlack as (r & Hin & Hr).
      apply in_map_iff. exists r. split; [apply lacks_agent_unknown; exact Hr | exact Hin].
  - intros fs paths d lines es logs' Hread H r Hr.
    rewrite (parse_logs_read_all fs d paths lines Hread) in H.
    destruct (process_lines_logs d lines _ _ _ _ H) as [-> _].
    simpl in Hr. apply In_decode_all. exact Hr.
Qed.

(** C6, as amended.  [parse_logs] returns on every input whose lines
    decode to JSON objects with a readable [@timestamp], a string or
    null [url] and a numeric or null [response_time], each of them
    present or not, as long as the running totals stay defined; a line
    that does not decode makes the run fail; and the fields the program
    does not recognize have no part in the statistics. *)
Theorem well_formed_lines_parse fs paths d lines :
  read_all fs paths = Some lines ->
  (forallb well_formed_line lines = true ->
   totals_defined d (decode_all lines) = true ->
   returns (parse_logs fs paths d) = true) /\
  (existsb (fun l => negb (decodes l)) lines = true ->
   returns (parse_logs fs paths d) = false) /\
  (forall fs' paths' lines',
      read_all fs' paths' = Some lines' ->
      Forall2 alike lines lines' ->
      stats_of (parse_logs fs' paths' d) = stats_of (parse_logs fs paths d)).
Proof.
  intros Hread. split; [|split].
  - intros Hwf Htot.
    destruct (parse_logs_agrees fs paths d lines Hread
                (forallb_Forall_true _ _ Hwf) (totals_defined_all d _ Htot))
      as (es & Hes & _).
    rewrite Hes. reflexivity.
  - intros Hbad. apply existsb_exists in Hbad. destruct Hbad as (l & Hl & Hdec).
    apply negb_true_iff in Hdec.
    rewrite (parse_logs_read_all fs d paths lines Hread).
    apply (for_each_fails (process_line d) lines l Hl).
    intros st. unfold decodes in Hdec.
    destruct (json_loads l) as [r|msg pos] eqn:E; [discriminate Hdec|].
    rewrite (process_line_invalid d st l msg pos E). reflexivity.
  - intros fs' paths' lines' Hread' Halike.
    rewrite (parse_logs_read_all fs d paths lines Hread).
    rewrite (parse_logs_read_all fs' d paths' lines' Hread').
    symmetry. apply process_lines_alike. exact Halike.
Qed.

(** C7, as amended.  When line [n] of file [i] does not decode, the run
    fails as a whole and hands nothing back, neither statistics nor
    records; when all that comes before that line is processed without
    error, the failure is the decoder's error for the line, which holds
    the text of the line and the offset within it. *)
Theorem undecodable_line_fails_run fs paths d i path lines n l msg pos :
  nth_error paths i = Some path ->
  fs path = Some lines ->
  nth_error lines n = Some l ->
  json_loads l = Invalid msg pos ->
  returns (parse_logs fs paths d) = false /\
  (forall state0 state,
      for_each (process_file fs d) ([], []) (firstn i paths) = Ok state0 ->
      for_each (process_line d) state0 (firstn n lines) = Ok state ->
      parse_logs fs paths d = Raise (JSONDecodeError msg l pos)).
Proof.
  intros Hpath Hfs Hl Hbad. split.
  - apply (undecodable_fails fs paths d path lines l).
    + apply (nth_error_In_some _ _ _ Hpath).
    + exact Hfs.
    + apply (nth_error_In_some _ _ _ Hl).
    + unfold decodes. rewrite Hbad. reflexivity.
  - intros state0 state H0 H1. unfold parse_logs.
    rewrite (nth_error_firstn_split paths i path Hpath) at 1.
    rewrite for_each_app, H0. cbn [bind for_each].
    unfold process_file at 1. rewrite Hfs.
    rewrite (nth_error_firstn_split lines n l Hl) at 1.
    rewrite for_each_app, H1. cbn [bind for_each].
    rewrite (process_line_invalid d state l msg pos Hbad). reflexivity.
Qed.

End Claims.

(* ================================================================= *)
(** * The claims on the scenarios *)

(** ** The test suite *)

(** [test_parse_logs] and [test_parse_logs_with_date_filter] *)
Example test_parse_logs :
  stats_of (parse_logs (lib := Sample.library) Scenario.fs ["test_logs.json"] None) =
    Ok [(VStr "/api/v1/resource", {| count := 2; total_response_time := NInt 500 |})] /\
  stats_of (parse_logs (lib := Sample.library) Scenario.fs ["test_logs.json"]
              (Some Scenario.june22)) =
    Ok [(VStr "/api/v1/resource", {| count := 2; total_response_time := NInt 500 |})].
Proof. split; vm_compute; reflexivity. Qed.

(** [test_average_response_time_report]: the averages are the floats
    [250.0] and [400.0]. *)
Example test_average_response_time_report :
  exists f250 f400,
    float_of_int 250 = Ok f250 /\ float_of_int 400 = Ok f400 /\
    AverageResponseTimeReport.generate
      {| Report.title := "Average Response Time Report" |} Scenario.test_stats =
    Ok ([ (VStr "/api/v1/resource", 2, NFloat f250);
          (VStr "/api/v1/another_resource", 1, NFloat f400) ],
        "Average Response Time Report").
Proof. do 2 eexists. repeat split; vm_compute; reflexivity. Qed.

(** [test_user_agent_report] *)
Example test_user_agent_report :
  UserAgentReport.generate {| Report.title := "User Agent Report" |}
    (decode_all (lib := Sample.library)
       (Scenario.test_logs ++ firstn 2 Scenario.more_logs)) =
  Ok ([ (VStr "Mozilla/5.0", 2); (VStr "Chrome/91.0", 1); (VStr "Firefox/89.0", 1) ],
      "User Agent Report").
Proof. vm_compute; reflexivity. Qed.

(** ** Where the program departs from the specification *)

(** C1, as stated, fails: a record whose url is the empty string has its
    url and its response time present, yet the mapping has no entry for
    it. *)
Lemma count_as_specified_fails :
  ~ (forall (lib : Library.t) fs paths d lines es logs e,
        read_all fs paths = Some lines ->
        forallb well_formed_line lines = true ->
        parse_logs fs paths d = Ok (es, logs) ->
        count_in es e =
        Z.of_nat (List.length
                    (filter (counted_as_specified d e) (decode_all lines)))).
Proof.
  intros H.
  specialize (H Sample.library Scenario.fs ["empty_url.json"] None
                Scenario.empty_url []
                (decode_all (lib := Sample.library) Scenario.empty_url)
                EmptyString eq_refl eq_refl eq_refl).
  vm_compute in H. discriminate H.
Qed.

(** The run behind it: one record read, nothing counted. *)
Example empty_url_run :
  parse_logs (lib := Sample.library) Scenario.fs ["empty_url.json"] None =
  Ok ([], [VDict [("url", VStr EmptyString); ("response_time", VInt 5)]]).
Proof. vm_compute; reflexivity. Qed.

(** C3, as stated, fails: the quotient of an integer total beyond the
    range of the floats raises [OverflowError], and no report is
    returned. *)
Lemma average_report_may_overflow :
  ~ (forall self es,
        returns (AverageResponseTimeReport.generate self es) = true).
Proof.
  intros H.
  specialize (H {| Report.title := "Average Response Time Report" |}
                Scenario.huge_stats).
  vm_compute in H. discriminate H.
Qed.

(** The mapping of that counterexample is one [parse_logs] returns. *)
Example huge_total_parsed :
  stats_of (parse_logs (lib := Sample.library) Scenario.fs ["huge_time.json"] None) =
  Ok Scenario.huge_stats.
Proof. vm_compute; reflexivity. Qed.

(** C6, as stated, fails: a JSON object whose [@timestamp] is a number
    is valid JSON, and [parse_logs] raises [TypeError] on it. *)
Lemma valid_objects_may_fail :
  ~ (forall (lib : Library.t) fs paths d lines,
        read_all fs paths = Some lines ->
        forallb object_line lines = true ->
        returns (parse_logs fs paths d) = true).
Proof.
  intros H.
  specialize (H Sample.library Scenario.fs ["bad_timestamp.json"] None
                Scenario.bad_timestamp eq_refl eq_refl).
  vm_compute in H. discriminate H.
Qed.

(** The run behind it. *)
Example bad_timestamp_run :
  Sample.json_loads (Sample.line "{'@timestamp': 5}") =
    Decoded (VDict [("@timestamp", VInt 5)]) /\
  parse_logs (lib := Sample.library) Scenario.fs ["bad_timestamp.json"] None =
    Raise TypeError.
Proof. split; vm_compute; reflexivity. Qed.

(** C7, as stated, fails twice.  The failure need not be a decode
    error: an earlier record may raise first.  And the decode error
    names neither file nor line: the same undecodable text, first line
    of one file and second line of another, raises the same error. *)
Lemma decode_error_unlocated :
  ~ (forall (lib : Library.t) fs paths d path lines l,
        In path paths -> fs path = Some lines -> In l lines ->
        decodes l = false ->
        exists msg doc pos,
          parse_logs fs paths d = Raise (JSONDecodeError msg doc pos)) /\
  ~ (exists locate : exn -> string * nat,
        forall (lib : Library.t) fs d path lines n l e,
          fs path = Some lines -> nth_error lines n = Some l ->
          decodes l = false -> forallb decodes (firstn n lines) = true ->
          parse_logs fs [path] d = Raise e ->
          locate e = (path, n)).
Proof.
  split.
  - intros H.
    destruct (H Sample.library Scenario.fs ["bad_timestamp.json"; "broken.json"]
                None "broken.json" Scenario.broken (Sample.line "oops"))
      as (msg & doc & pos & Hrun).
    + right. left. reflexivity.
    + reflexivity.
    + left. reflexivity.
    + vm_compute; reflexivity.
    + vm_compute in Hrun. discriminate Hrun.
  - intros [locate H].
    pose proof (H Sample.library Scenario.fs None "broken.json" Scenario.broken
                  0%nat (Sample.line "oops")
                  (JSONDecodeError "Expecting value" (Sample.line "oops") 0)
                  eq_refl eq_refl eq_refl eq_refl eq_refl) as H1.
    pose proof (H Sample.library Scenario.fs None "late_broken.json"
                  Scenario.late_broken 1%nat (Sample.line "oops")
                  (JSONDecodeError "Expecting value" (Sample.line "oops") 0)
                  eq_refl eq_refl eq_refl eq_refl eq_refl) as H2.
    rewrite H1 in H2. discriminate H2.
Qed.

(** The runs behind it. *)
Example broken_runs :
  parse_logs (lib := Sample.library) Scenario.fs
    ["bad_timestamp.json"; "broken.json"] None = Raise TypeError /\
  parse_logs (lib := Sample.library) Scenario.fs ["broken.json"] None =
    Raise (JSONDecodeError "Expecting value" (Sample.line "oops") 0) /\
  parse_logs (lib := Sample.library) Scenario.fs ["late_broken.json"] None =
    Raise (JSONDecodeError "Expecting value" (Sample.line "oops") 0).
Proof. repeat split; vm_compute; reflexivity. Qed.

(** ** The theorems at work *)

Lemma endpoint_stats_counts_witness :
  let records :=
    decode_all (lib := Sample.library) (Scenario.test_logs ++ Scenario.more_logs) in
  exists es logs,
    parse_logs (lib := Sample.library) Scenario.fs
      ["test_logs.json"; "more_logs.json"] (Some Scenario.june22) = Ok (es, logs) /\
    (forall e,
        count_in es e = count_for (lib := Sample.library) (Some Scenario.june22) e records /\
        match dd_find (VStr e) es with
        | Some s =>
            total_for (lib := Sample.library) (Some Scenario.june22) e records =
            Ok (total_response_time s)
        | None => count_for (lib := Sample.library) (Some Scenario.june22) e records = 0
        end) /\
    Forall (fun item =>
              exists e, fst item = VStr e /\
                        0 < count_for (lib := Sample.library) (Some Scenario.june22) e records)
      es.
Proof.
  apply (endpoint_stats_counts (lib := Sample.library) Scenario.fs
           ["test_logs.json"; "more_logs.json"] (Some Scenario.june22)
           (Scenario.test_logs ++ Scenario.more_logs));
    vm_compute; reflexivity.
Defined.

Lemma average_report_rows_witness :
  exists rows,
    AverageResponseTimeReport.generate
      {| Report.title := "Average Response Time Report" |} Scenario.test_stats =
      Ok (rows, "Average Response Time Report") /\
    Forall2 row_of Scenario.test_stats rows /\
    map (fun row : AverageResponseTimeReport.row => fst (fst row)) rows =
      map fst Scenario.test_stats /\
    select_report "average" =
      Some (Average {| Report.title := "Average Response Time Report" |}).
Proof.
  apply (average_report_rows
           {| Report.title := "Average Response Time Report" |} Scenario.test_stats).
  vm_compute; reflexivity.
Defined.

Lemma user_agent_report_rows_witness :
  UserAgentReport.generate {| Report.title := "User Agent Report" |}
    Scenario.agent_logs =
  Ok (agent_rows (map agent_of Scenario.agent_logs), "User Agent Report").
Proof.
  apply (proj1 (user_agent_report_rows {| Report.title := "User Agent Report" |}
                  Scenario.agent_logs eq_refl)).
Defined.

Lemma missing_agent_counts_as_unknown_witness :
  exists rows,
    UserAgentReport.generate {| Report.title := "User Agent Report" |}
      Scenario.agent_logs = Ok (rows, "User Agent Report") /\
    dd_find (VStr "Unknown") rows = Some 1.
Proof.
  destruct (missing_agent_counts_as_unknown (lib := Sample.library)
              {| Report.title := "User Agent Report" |} Scenario.agent_logs
              eq_refl eq_refl) as (rows & Hgen & _ & Hrow & _).
  exists rows. split; [exact Hgen | exact Hrow].
Defined.

Lemma well_formed_lines_parse_witness :
  returns (parse_logs (lib := Sample.library) Scenario.fs
             ["test_logs.json"; "more_logs.json"] (Some Scenario.june23)) = true.
Proof.
  apply (proj1 (well_formed_lines_parse (lib := Sample.library) Scenario.fs
                  ["test_logs.json"; "more_logs.json"] (Some Scenario.june23)
                  (Scenario.test_logs ++ Scenario.more_logs) eq_refl));
    vm_compute; reflexivity.
Defined.

Lemma undecodable_line_fails_run_witness :
  parse_logs (lib := Sample.library) Scenario.fs
    ["test_logs.json"; "late_broken.json"] None =
  Raise (JSONDecodeError "Expecting value" (Sample.line "oops") 0).
Proof.
  refine (proj2 (undecodable_line_fails_run (lib := Sample.library) Scenario.fs
                   ["test_logs.json"; "late_broken.json"] None
                   1%nat "late_broken.json" Scenario.late_broken
                   1%nat (Sample.line "oops") "Expecting value" 0%nat
                   eq_refl eq_refl eq_refl eq_refl) _ _ _ _);
    vm_compute; reflexivity.
Defined.

(** The two log files of the scenarios, read with and without filter. *)
Lemma logs_keep_every_record_witness :
  exists es,
    parse_logs (lib := Sample.library) Scenario.fs
      ["test_logs.json"; "more_logs.json"] (Some Scenario.june22) =
    Ok (es, decode_all (lib := Sample.library)
              (Scenario.test_logs ++ Scenario.more_logs)).
Proof.
  apply (proj2 (logs_keep_every_record (lib := Sample.library) Scenario.fs
                  ["test_logs.json"; "more_logs.json"]
                  (Scenario.test_logs ++ Scenario.more_logs)
                  eq_refl eq_refl)); vm_compute; reflexivity.
Defined.

Lemma date_filter_scenarios_witness :
  parse_logs (lib := Sample.library) Scenario.fs ["test_logs.json"]
    (Some Scenario.june22) =
  parse_logs (lib := Sample.library) Scenario.fs ["test_logs.json"] None /\
  parse_logs (lib := Sample.library) Scenario.fs ["test_logs.json"]
    (Some Scenario.july1) =
  Ok ([], decode_all (lib := Sample.library) Scenario.test_logs).
Proof.
  split.
  - apply (proj1 (date_filter_scenarios (lib := Sample.library) Scenario.fs
                    ["test_logs.json"] Scenario.test_logs Scenario.june22 eq_refl)).
    vm_compute; reflexivity.
  - apply (proj2 (date_filter_scenarios (lib := Sample.library) Scenario.fs
                    ["test_logs.json"] Scenario.test_logs Scenario.july1 eq_refl));
      vm_compute; reflexivity.
Defined.


Lemma endpoint_counts_positive_witness :
  Forall (fun item => 1 <= count (snd item)) Scenario.parsed_stats.
Proof.
  apply (proj1 (endpoint_counts_positive (lib := Sample.library) Scenario.fs
                  ["test_logs.json"; "more_logs.json"] None
                  Scenario.parsed_stats Scenario.parsed_logs eq_refl)).
Defined.

(* ================================================================= *)
(** * Beyond the claims *)

(** ** Runs and their failures *)

Section RunFailures.
Context {lib : Library.t}.

(** The run fails with the error of the first iteration that fails. *)
Lemma first_failure fs paths d i path lines n l e :
  nth_error paths i = Some path ->
  fs path = Some lines ->
  nth_error lines n = Some l ->
  (forall state, process_line d state l = Raise e) ->
  forall state0 state,
    for_each (process_file fs d) ([], []) (firstn i paths) = Ok state0 ->
    for_each (process_line d) state0 (firstn n lines) = Ok state ->
    parse_logs fs paths d = Raise e.
Proof.
  intros Hpath Hfs Hl Hfail state0 state H0 H1. unfold parse_logs.
  rewrite (nth_error_firstn_split paths i path Hpath) at 1.
  rewrite for_each_app, H0. cbn [bind for_each].
  unfold process_file at 1. rewrite Hfs.
  rewrite (nth_error_firstn_split lines n l Hl) at 1.
  rewrite for_each_app, H1. cbn [bind for_each].
  rewrite (Hfail state). reflexivity.
Qed.

Lemma process_line_scalar d state line v :
  json_loads line = Decoded v -> scalar v = true ->
  process_line d state line = Raise TypeError.
Proof.
  intros Hv Hs. destruct state as [es logs].
  unfold process_line, loads. rewrite Hv. cbn [bind].
  unfold log_date_of. destruct v; try discriminate Hs; reflexivity.
Qed.

Lemma process_line_timestamp_error d state line fields v e :
  json_loads line = Decoded (VDict fields) ->
  dict_get "@timestamp" fields = Some v ->
  timestamp_error v = Some e ->
  process_line d state line = Raise e.
Proof.
  intros Hr Hv He. destruct state as [es logs].
  unfold process_line, loads. rewrite Hr. cbn [bind].
  unfold log_date_of. simpl. rewrite Hv. simpl.
  unfold timestamp_error in He.
  destruct v as [| | | |t| |]; simpl; try (injection He as <-; reflexivity).
  destruct (fromisoformat t); [discriminate He|].
  injection He as <-. reflexivity.
Qed.

(** Under a date filter a bare array or string is passed over. *)
Lemma process_line_bare_filtered d es logs line v :
  json_loads line = Decoded v -> bare_sequence v = true ->
  process_line (Some d) (es, logs) line = Ok (es, logs ++ [v]).
Proof.
  intros Hv Hb. unfold process_line, loads. rewrite Hv. cbn [bind].
  unfold log_date_of.
  destruct v as [| | | |s|l|fields]; try discriminate Hb; simpl in *.
  - apply negb_true_iff in Hb. rewrite Hb. reflexivity.
  - apply negb_true_iff in Hb. rewrite Hb. reflexivity.
Qed.

(** Without filter it has no [get]. *)
Lemma process_line_bare_unfiltered state line v :
  json_loads line = Decoded v -> bare_sequence v = true ->
  process_line None state line = Raise AttributeError.
Proof.
  intros Hv Hb. destruct state as [es logs].
  unfold process_line, loads. rewrite Hv. cbn [bind].
  unfold log_date_of.
  destruct v as [| | | |s|l|fields]; try discriminate Hb; simpl in *.
  - apply negb_true_iff in Hb. rewrite Hb. reflexivity.
  - apply negb_true_iff in Hb. rewrite Hb. reflexivity.
Qed.

Lemma process_lines_bare_filtered d lines :
  forallb bare_sequence_line lines = true ->
  forall es logs,
    for_each (process_line (Some d)) (es, logs) lines =
    Ok (es, logs ++ decode_all lines).
Proof.
  induction lines as [|l lines IH]; intros Hall es logs.
  - simpl. rewrite app_nil_r. reflexivity.
  - cbn [forallb] in Hall. apply andb_prop in Hall as [Hl Hall].
    unfold bare_sequence_line in Hl.
    destruct (json_loads l) as [v|msg pos] eqn:Hv; [|discriminate Hl].
    cbn [for_each].
    rewrite (process_line_bare_filtered d es logs l v Hv Hl). cbn [bind].
    rewrite (IH Hall).
    unfold decode_all at 2. cbn [flat_map]. rewrite Hv.
    rewrite <- app_assoc. reflexivity.
Qed.

(** X1.  The files are read as one sequence of lines: two runs whose
    files hold the same lines in the same order, however these are
    divided into files, have the same outcome, error or not. *)
Theorem file_boundaries_do_not_matter fs paths fs' paths' lines d :
  read_all fs paths = Some lines ->
  read_all fs' paths' = Some lines ->
  parse_logs fs paths d = parse_logs fs' paths' d.
Proof.
  intros H H'.
  rewrite (parse_logs_read_all fs d paths lines H).
  rewrite (parse_logs_read_all fs' d paths' lines H').
  reflexivity.
Qed.

(** X2.  A file that cannot be opened makes the run fail, whatever the
    other files hold; when the files before it are processed without
    error, the failure is the [OSError] of that file. *)
Theorem missing_file_fails_run fs paths d i path :
  nth_error paths i = Some path ->
  fs path = None ->
  returns (parse_logs fs paths d) = false /\
  (forall state0,
      for_each (process_file fs d) ([], []) (firstn i paths) = Ok state0 ->
      parse_logs fs paths d = Raise (OSError path)).
Proof.
  intros Hpath Hfs. split.
  - unfold parse_logs.
    apply (for_each_fails (process_file fs d) paths path
             (nth_error_In_some _ _ _ Hpath)).
    intros state. unfold process_file. rewrite Hfs. reflexivity.
  - intros state0 H0. unfold parse_logs.
    rewrite (nth_error_firstn_split paths i path Hpath) at 1.
    rewrite for_each_app, H0. cbn [bind for_each].
    unfold process_file at 1. rewrite Hfs. reflexivity.
Qed.

(** X3.  A line that is valid JSON but a number, a boolean or null
    makes the run fail with [TypeError], with or without date filter,
    when all that comes before it is processed without error. *)
Theorem scalar_line_raises_type_error fs paths d i path lines n l v :
  nth_error paths i = Some path ->
  fs path = Some lines ->
  nth_error lines n = Some l ->
  json_loads l = Decoded v ->
  scalar v = true ->
  forall state0 state,
    for_each (process_file fs d) ([], []) (firstn i paths) = Ok state0 ->
    for_each (process_line d) state0 (firstn n lines) = Ok state ->
    parse_logs fs paths d = Raise TypeError.
Proof.
  intros Hpath Hfs Hl Hv Hs.
  apply (first_failure fs paths d i path lines n l TypeError Hpath Hfs Hl).
  intros state. apply (process_line_scalar d state l v Hv Hs).
Qed.

(** X4.  A present [@timestamp] is read before the date filter is
    looked at: when it is not a string (null included) the run fails
    with [TypeError], when it is a string the library rejects, with
    [ValueError], whatever the filter date and the other fields. *)
Theorem unreadable_timestamp_raises fs paths d i path lines n l fields v e :
  nth_error paths i = Some path ->
  fs path = Some lines ->
  nth_error lines n = Some l ->
  json_loads l = Decoded (VDict fields) ->
  dict_get "@timestamp" fields = Some v ->
  timestamp_error v = Some e ->
  forall state0 state,
    for_each (process_file fs d) ([], []) (firstn i paths) = Ok state0 ->
    for_each (process_line d) state0 (firstn n lines) = Ok state ->
    parse_logs fs paths d = Raise e.
Proof.
  intros Hpath Hfs Hl Hr Hv He.
  apply (first_failure fs paths d i path lines n l e Hpath Hfs Hl).
  intros state. apply (process_line_timestamp_error d state l fields v e Hr Hv He).
Qed.

(** X5.  The date filter hides what is no JSON object: over lines that
    are arrays or strings without ["@timestamp"] the filtered run
    returns, with empty statistics and every value kept as a record,
    while the unfiltered run fails with [AttributeError] at the first
    line. *)
Theorem filter_passes_over_bare_sequences fs paths lines d :
  read_all fs paths = Some lines ->
  forallb bare_sequence_line lines = true ->
  parse_logs fs paths (Some d) = Ok ([], decode_all lines) /\
  (lines <> [] -> parse_logs fs paths None = Raise AttributeError).
Proof.
  intros Hread Hall. split.
  - rewrite (parse_logs_read_all fs _ paths lines Hread).
    apply (process_lines_bare_filtered d lines Hall [] []).
  - intros Hne. rewrite (parse_logs_read_all fs _ paths lines Hread).
    destruct lines as [|l lines]; [contradiction Hne; reflexivity|].
    cbn [forallb] in Hall. apply andb_prop in Hall as [Hl _].
    unfold bare_sequence_line in Hl.
    destruct (json_loads l) as [v|msg pos] eqn:Hv; [|discriminate Hl].
    cbn [for_each].
    rewrite (process_line_bare_unfiltered _ l v Hv Hl). reflexivity.
Qed.

End RunFailures.

(** ** What the mapping accounts for *)

Section Accounting.
Context {lib : Library.t}.

Lemma stats_total_app (d1 d2 : list (value * stats)) :
  stats_total (d1 ++ d2) = stats_total d1 + stats_total d2.
Proof.
  unfold stats_total. induction d1 as [|[k s] d1 IH]; simpl; [reflexivity|].
  rewrite IH. lia.
Qed.

Lemma stats_total_replace (d : list (value * stats)) k s v :
  dd_find k d = Some s ->
  stats_total (dd_replace k v d) = stats_total d - count s + count v.
Proof.
  unfold stats_total.
  induction d as [|[k' w] d IH]; simpl; [discriminate|].
  destruct (key_eqb k' k); simpl.
  - intros [= ->]. lia.
  - intros H. rewrite (IH H). lia.
Qed.

(** A contribution adds one to the sum of the counts. *)
Lemma stats_total_setitem (d : list (value * stats)) k t :
  stats_total
    (dd_setitem d k
       {| count := count (match dd_find k d with
                          | Some s => s
                          | None => new_stats
                          end) + 1;
          total_response_time := t |}) =
  stats_total d + 1.
Proof.
  unfold dd_setitem. destruct (dd_find k d) as [s|] eqn:E.
  - rewrite (stats_total_replace d k s _ E). simpl. lia.
  - rewrite stats_total_app. unfold stats_total. simpl. lia.
Qed.

Lemma contribute_total es k rt es' :
  contribute es k rt = Ok es' -> stats_total es' = stats_total es + 1.
Proof.
  intros H. destruct (hashable k) eqn:Hk.
  - rewrite (contribute_eq es k rt Hk) in H. cbn zeta in H.
    apply bind_Ok in H. destruct H as (t & _ & H). injection H as <-.
    apply stats_total_setitem.
  - unfold contribute, dd_getitem in H. rewrite Hk in H. discriminate H.
Qed.

(** One iteration keeps the record and adds one to the counts exactly
    when the record passes the program's test. *)
Lemma process_line_total d es logs line es' logs' :
  process_line d (es, logs) line = Ok (es', logs') ->
  exists r,
    logs' = logs ++ [r] /\
    stats_total es' = stats_total es + (if contributes d r then 1 else 0).
Proof.
  intros H. unfold process_line, loads in H.
  destruct (json_loads line) as [r|msg pos]; [|discriminate H].
  cbn [bind] in H. exists r.
  destruct (log_date_of r) as [od|x] eqn:Hd; [|discriminate H].
  apply log_date_of_Ok in Hd. subst od. cbn [bind] in H.
  rewrite skipped_on_date in H. unfold contributes.
  destruct (on_date d r); cbn [negb andb] in *.
  - destruct r as [| | | | | |fields]; try discriminate H.
    cbn [py_get bind] in H. unfold has_response_time.
    change (match dict_get "url" fields with Some x => x | None => VNone end)
      with (field "url" (VDict fields)) in H.
    change (match dict_get "response_time" fields with
            | Some x => x | None => VNone end)
      with (field "response_time" (VDict fields)) in H.
    destruct (truthy (field "url" (VDict fields)) &&
              negb (is_none (field "response_time" (VDict fields)))).
    + apply bind_Ok in H. destruct H as (es1 & H1 & H).
      injection H as <- <-. split; [reflexivity|].
      apply (contribute_total _ _ _ _ H1).
    + injection H as <- <-. split; [reflexivity | lia].
  - injection H as <- <-. split; [reflexivity | lia].
Qed.

Lemma process_lines_total d lines :
  forall es logs es' logs',
    for_each (process_line d) (es, logs) lines = Ok (es', logs') ->
    exists records,
      logs' = logs ++ records /\
      stats_total es' =
      stats_total es + Z.of_nat (List.length (filter (contributes d) records)).
Proof.
  induction lines as [|l lines IH]; cbn [for_each]; intros es logs es' logs' H.
  - injection H as <- <-. exists []. rewrite app_nil_r. simpl. split; [reflexivity | lia].
  - apply bind_Ok in H. destruct H as ([es1 logs1] & H1 & H).
    destruct (process_line_total d es logs l es1 logs1 H1) as (r & -> & Ht1).
    destruct (IH _ _ _ _ H) as (records & -> & Ht).
    exists (r :: records). rewrite <- app_assoc. split; [reflexivity|].
    rewrite Ht, Ht1. cbn [filter].
    destruct (contributes d r); cbn [List.length]; lia.
Qed.

Lemma filter_length_bound {A} (f : A -> bool) (l : list A) :
  (List.length (filter f l) <= List.length l)%nat.
Proof.
  induction l as [|x l IH]; simpl; [lia|].
  destruct (f x); simpl; lia.
Qed.

Lemma filter_length_mono {A} (f g : A -> bool) (l : list A) :
  (forall x, f x = true -> g x = true) ->
  (List.length (filter f l) <= List.length (filter g l))%nat.
Proof.
  intros Hfg. induction l as [|x l IH]; simpl; [lia|].
  destruct (f x) eqn:Hf.
  - rewrite (Hfg x Hf). simpl. lia.
  - destruct (g x); simpl; lia.
Qed.

(** X6.  Whatever the input, when [parse_logs] returns, the counts of
    its mapping add up to the number of returned records that pass the
    date filter and have a true url and a response time other than
    [None]: each such record is counted once, in one entry, and no other
    record is counted; so the counts never exceed the number of
    records. *)
Theorem counts_sum_to_contributions fs paths d es logs :
  parse_logs fs paths d = Ok (es, logs) ->
  stats_total es = Z.of_nat (List.length (filter (contributes d) logs)) /\
  stats_total es <= Z.of_nat (List.length logs).
Proof.
  intros H.
  assert (Hret : returns (for_each (process_file fs d) ([], []) paths) = true)
    by (unfold parse_logs in H; rewrite H; reflexivity).
  destruct (process_files_returns fs d paths _ Hret) as [lines Hread].
  rewrite (parse_logs_read_all fs d paths lines Hread) in H.
  destruct (process_lines_total d lines _ _ _ _ H) as (records & Hlogs & Ht).
  simpl in Hlogs. subst logs. change (stats_total []) with 0 in Ht.
  split; [lia|].
  pose proof (filter_length_bound (contributes d) records). lia.
Qed.

(** *** The order of the keys *)

Lemma contributors_snoc d records r :
  contributors d (records ++ [r]) =
  contributors d records ++
  match field "url" r with
  | VStr e => if counted d e r then [e] else []
  | _ => []
  end.
Proof.
  unfold contributors. rewrite flat_map_app. simpl. rewrite app_nil_r.
  reflexivity.
Qed.

Lemma In_contributors d e records :
  In e (contributors d records) <->
  exists r, In r records /\ counted d e r = true.
Proof.
  unfold contributors. rewrite in_flat_map. split.
  - intros (r & Hr & He). exists r. split; [exact Hr|].
    destruct (field "url" r) as [| | | |e'| |]; try contradiction.
    destruct (counted d e' r) eqn:Hc; [|contradiction].
    destruct He as [->|[]]. exact Hc.
  - intros (r & Hr & Hc). exists r. split; [exact Hr|].
    rewrite (counted_url d e r Hc), Hc. left. reflexivity.
Qed.

Lemma count_for_zero d e records :
  count_for d e records = 0 <-> ~ In e (contributors d records).
Proof.
  unfold count_for. rewrite In_contributors. split.
  - intros H (r & Hr & Hc).
    assert (Hin : In r (filter (counted d e) records))
      by (apply filter_In; split; assumption).
    destruct (filter (counted d e) records); [contradiction | simpl in H; lia].
  - intros H.
    destruct (filter (counted d e) records) as [|r rs] eqn:E; [reflexivity|].
    exfalso. apply H. exists r.
    apply filter_In. rewrite E. left. reflexivity.
Qed.

(** One iteration on a well-formed record appends its url to the keys
    when the record is the first that counts for it. *)
Lemma process_line_order d records es logs line r es' logs' :
  json_loads line = Decoded r -> well_formed r = true ->
  agrees d records es ->
  map fst es = map VStr (distinct (contributors d records)) ->
  process_line d (es, logs) line = Ok (es', logs') ->
  map fst es' = map VStr (distinct (contributors d (records ++ [r]))).
Proof.
  intros Hr Hwf Hag Hkeys H.
  unfold well_formed in Hwf.
  apply andb_prop in Hwf as [Hwf _]. apply andb_prop in Hwf as [Hts Hurl].
  rewrite (process_line_timestamp_ok d es logs line r Hr Hts) in H.
  rewrite contributors_snoc.
  pose proof Hurl as Hurl'. unfold url_ok in Hurl'.
  destruct (field "url" r) as [| | | |e0| |] eqn:Hu; try discriminate Hurl'.
  - simpl in H. rewrite andb_false_r in H. simpl in H.
    injection H as <- _. rewrite app_nil_r. exact Hkeys.
  - rewrite <- Hu in H. rewrite (counted_iff d r e0 Hurl Hu) in H.
    destruct (counted d e0 r) eqn:Hc.
    + apply bind_Ok in H. destruct H as (es1 & H1 & H). injection H as <- _.
      rewrite Hu in H1.
      rewrite (contribute_eq es (VStr e0) _ eq_refl) in H1. cbn zeta in H1.
      apply bind_Ok in H1. destruct H1 as (t & _ & H1). injection H1 as <-.
      rewrite dd_setitem_keys, distinct_snoc.
      pose proof (Hag e0) as H0.
      destruct (dd_find (VStr e0) es) as [s|].
      * destruct H0 as (Hcnt & _ & Hpos).
        destruct (in_dec string_dec e0 (contributors d records)) as [_|Hnin];
          [exact Hkeys|].
        apply count_for_zero in Hnin. lia.
      * destruct (in_dec string_dec e0 (contributors d records)) as [Hin|_].
        -- exfalso. apply (proj1 (count_for_zero d e0 records) H0). exact Hin.
        -- rewrite map_app, Hkeys. reflexivity.
    + injection H as <- _. rewrite app_nil_r. exact Hkeys.
Qed.

Lemma process_lines_order d lines :
  forall records es logs,
    Forall (fun l => well_formed_line l = true) lines ->
    agrees d records es ->
    map fst es = map VStr (distinct (contributors d records)) ->
    (forall e, returns (total_for d e (records ++ decode_all lines)) = true) ->
    exists es',
      for_each (process_line d) (es, logs) lines =
        Ok (es', logs ++ decode_all lines) /\
      map fst es' =
        map VStr (distinct (contributors d (records ++ decode_all lines))).
Proof.
  induction lines as [|l lines IH]; intros records es logs Hwf Hag Hkeys Hret.
  - simpl. rewrite !app_nil_r. exists es. split; [reflexivity | exact Hkeys].
  - inversion Hwf as [|? ? Hl Hwf']; subst.
    unfold well_formed_line in Hl.
    destruct (json_loads l) as [r|msg pos] eqn:Hr; [|discriminate Hl].
    assert (Hd : decode_all (l :: lines) = [r] ++ decode_all lines).
    { unfold decode_all. simpl. rewrite Hr. reflexivity. }
    rewrite Hd in *. rewrite app_assoc in Hret.
    destruct (process_line_agrees d records es logs l r Hr Hl Hag)
      as (es1 & H1 & Hag1).
    { intros e. eapply total_for_prefix. apply Hret. }
    pose proof (process_line_order d records es logs l r es1 _ Hr Hl Hag Hkeys H1)
      as Hkeys1.
    destruct (IH (records ++ [r]) es1 (logs ++ [r]) Hwf' Hag1 Hkeys1 Hret)
      as (es' & H' & Hkeys').
    exists es'. cbn [for_each]. rewrite H1. cbn [bind].
    rewrite H', <- !app_assoc. split; [reflexivity|].
    rewrite <- app_assoc in Hkeys'. exact Hkeys'.
Qed.

(** X7.  On well-formed lines the keys of the returned mapping are the
    urls of the counted records, each once, in the order in which each
    url is first counted: the order in which the average report lists
    the endpoints. *)
Theorem keys_in_order_of_first_count fs paths d lines :
  read_all fs paths = Some lines ->
  forallb well_formed_line lines = true ->
  totals_defined d (decode_all lines) = true ->
  exists es logs,
    parse_logs fs paths d = Ok (es, logs) /\
    map fst es = map VStr (distinct (contributors d (decode_all lines))).
Proof.
  intros Hread Hwf Htot.
  rewrite (parse_logs_read_all fs d paths lines Hread).
  destruct (process_lines_order d lines [] [] []
              (forallb_Forall_true _ _ Hwf) (agrees_nil d) eq_refl
              (totals_defined_all d _ Htot)) as (es & Hes & Hkeys).
  exists es, (decode_all lines). split; [exact Hes | exact Hkeys].
Qed.

(** *** Filtered against unfiltered *)

Lemma agrees_count_in d records es e :
  agrees d records es -> count_in es e = count_for d e records.
Proof.
  intros Hag. specialize (Hag e). unfold count_in.
  destruct (dd_find (VStr e) es) as [s|].
  - destruct Hag as (Hc & _). exact Hc.
  - symmetry. exact Hag.
Qed.

Lemma counted_without_filter d e r :
  counted (Some d) e r = true -> counted None e r = true.
Proof.
  unfold counted, counted_as_specified. simpl.
  intros H. apply andb_prop in H as [H1 H]. apply andb_prop in H as [H2 _].
  rewrite H1, H2. reflexivity.
Qed.

(** X8.  On well-formed lines a date filter never raises the count of
    an endpoint: every count of the filtered run is at most the count
    the unfiltered run gives the same endpoint, and both runs return the
    same records. *)
Theorem filter_never_raises_a_count fs paths lines d :
  read_all fs paths = Some lines ->
  forallb well_formed_line lines = true ->
  totals_defined (Some d) (decode_all lines) = true ->
  totals_defined None (decode_all lines) = true ->
  exists filtered unfiltered logs,
    parse_logs fs paths (Some d) = Ok (filtered, logs) /\
    parse_logs fs paths None = Ok (unfiltered, logs) /\
    forall e, count_in filtered e <= count_in unfiltered e.
Proof.
  intros Hread Hwf Htd Htn. apply forallb_Forall_true in Hwf.
  destruct (parse_logs_agrees fs paths (Some d) lines Hread Hwf
              (totals_defined_all _ _ Htd)) as (es1 & H1 & Hag1).
  destruct (parse_logs_agrees fs paths None lines Hread Hwf
              (totals_defined_all _ _ Htn)) as (es0 & H0 & Hag0).
  exists es1, es0, (decode_all lines). split; [exact H1|]. split; [exact H0|].
  intros e.
  rewrite (agrees_count_in _ _ _ e Hag1), (agrees_count_in _ _ _ e Hag0).
  unfold count_for.
  pose proof (filter_length_mono (counted (Some d) e) (counted None e)
                (decode_all lines) (counted_without_filter d e)).
  lia.
Qed.

(** *** Integer response times *)

Lemma well_formed_records lines :
  forallb well_formed_line lines = true ->
  forallb well_formed (decode_all lines) = true.
Proof.
  intros H. apply forallb_forall. intros r Hr.
  apply In_decode_all in Hr. destruct Hr as (l & Hl & Hr).
  rewrite forallb_forall in H. specialize (H l Hl).
  unfold well_formed_line in H. rewrite Hr in H. exact H.
Qed.

Lemma for_each_py_add_int_sum (vs : list value) :
  Forall (fun v => exists n, as_num v = Some (NInt n)) vs ->
  forall a,
    for_each py_add (NInt a) vs =
    Ok (NInt (a + fold_right Z.add 0 (map int_value vs))).
Proof.
  induction 1 as [|v vs (n & Hv) _ IH]; intros a; simpl.
  - rewrite Z.add_0_r. reflexivity.
  - unfold py_add. rewrite Hv. simpl. rewrite IH.
    unfold int_value at 2. rewrite Hv. do 2 f_equal. lia.
Qed.

Lemma counted_integer_time d e r :
  well_formed r = true -> integer_time r = true -> counted d e r = true ->
  exists n, as_num (field "response_time" r) = Some (NInt n).
Proof.
  intros Hwf Hint Hc.
  unfold well_formed in Hwf. apply andb_prop in Hwf as [_ Hrt].
  unfold counted, counted_as_specified, has_response_time in Hc.
  unfold response_time_ok in Hrt. unfold integer_time in Hint.
  destruct (field "response_time" r) as [|b|n|f|t|l|fields]; simpl in *;
    try discriminate.
  - rewrite !andb_false_r in Hc. discriminate Hc.
  - exists (Z.b2z b). reflexivity.
  - exists n. reflexivity.
Qed.

(** X9.  When no response time is a float, the run over well-formed
    lines always returns, and the total of every endpoint is the exact
    integer sum of the response times counted for it, however large. *)
Theorem integer_totals_are_exact fs paths d lines :
  read_all fs paths = Some lines ->
  forallb well_formed_line lines = true ->
  forallb integer_time (decode_all lines) = true ->
  exists es logs,
    parse_logs fs paths d = Ok (es, logs) /\
    forall e s,
      dd_find (VStr e) es = Some s ->
      total_response_time s = NInt (int_total d e (decode_all lines)).
Proof.
  intros Hread Hwf Hint.
  pose proof (well_formed_records lines Hwf) as Hwfr.
  pose proof (integer_totals_defined d _ Hwfr Hint) as Htot.
  destruct (parse_logs_agrees fs paths d lines Hread
              (forallb_Forall_true _ _ Hwf) (totals_defined_all d _ Htot))
    as (es & Hes & Hag).
  exists es, (decode_all lines). split; [exact Hes|].
  intros e s Hs. specialize (Hag e). rewrite Hs in Hag.
  destruct Hag as (_ & Ht & _).
  unfold total_for in Ht.
  rewrite for_each_py_add_int_sum in Ht.
  - injection Ht as Ht. rewrite <- Ht. unfold int_total.
    rewrite map_map. reflexivity.
  - apply Forall_forall. intros v Hv. apply in_map_iff in Hv.
    destruct Hv as (r & <- & Hr). apply filter_In in Hr. destruct Hr as [Hr Hc].
    rewrite forallb_forall in Hwfr, Hint.
    exact (counted_integer_time d e r (Hwfr r Hr) (Hint r Hr) Hc).
Qed.

End Accounting.

(** ** The reports beyond their rows *)

Section ReportOutcomes.

(** A quotient of the average report fails by overflow only: the
    division is guarded against a zero count. *)
Lemma average_of_overflow (s : stats) (e : exn) :
  average_of s = Raise e -> e = OverflowError.
Proof.
  unfold average_of.
  destruct (Z.ltb_spec 0 (count s)) as [Hpos|_]; [|discriminate].
  assert (Hnz : (count s =? 0) = false) by (apply Z.eqb_neq; lia).
  unfold py_truediv.
  destruct (total_response_time s) as [x|f].
  - unfold int_truediv. rewrite Hnz.
    destruct (x =? 0); [discriminate|].
    destruct (is_inf _); simpl; [|discriminate].
    intros [= <-]. reflexivity.
  - unfold float_of_int.
    destruct (is_inf _); simpl.
    + intros [= <-]. reflexivity.
    + rewrite Hnz. discriminate.
Qed.

Lemma add_rows_outcome items :
  forall acc,
    returns (for_each AverageResponseTimeReport.add_row acc items) =
      forallb (fun item => returns (average_of (snd item))) items /\
    (forall e, for_each AverageResponseTimeReport.add_row acc items = Raise e ->
               e = OverflowError).
Proof.
  induction items as [|item items IH]; intros acc; cbn [for_each forallb].
  - split; [reflexivity | discriminate].
  - rewrite add_row_eq.
    destruct (average_of (snd item)) as [avg|x] eqn:Ha; cbn [bind returns andb].
    + apply IH.
    + split; [reflexivity|]. intros e [= <-].
      apply (average_of_overflow _ _ Ha).
Qed.

(** The rows appended to a list are the rows of the report, put after
    it. *)
Lemma add_rows_shift items :
  forall acc,
    for_each AverageResponseTimeReport.add_row acc items =
    (rows <- for_each AverageResponseTimeReport.add_row [] items ;;
     Ok (acc ++ rows)).
Proof.
  induction items as [|item items IH]; intros acc; cbn [for_each].
  - simpl. rewrite app_nil_r. reflexivity.
  - rewrite !add_row_eq.
    destruct (average_of (snd item)) as [avg|x]; cbn [bind]; [|reflexivity].
    rewrite (IH (acc ++ _)), (IH ([] ++ _)).
    destruct (for_each AverageResponseTimeReport.add_row [] items) as [rows|x];
      cbn [bind]; [|reflexivity].
    rewrite <- app_assoc. reflexivity.
Qed.

(** X10.  The average report returns exactly when every quotient it
    needs is defined, and when it fails it fails with [OverflowError]:
    an entry whose count is zero or negative gets the average [0] and
    never raises [ZeroDivisionError]. *)
Theorem average_report_fails_by_overflow_only self es :
  returns (AverageResponseTimeReport.generate self es) =
    forallb (fun item => returns (average_of (snd item))) es /\
  (forall e, AverageResponseTimeReport.generate self es = Raise e ->
             e = OverflowError) /\
  (forall item, In item es -> count (snd item) <= 0 ->
                average_of (snd item) = Ok (NInt 0)).
Proof.
  unfold AverageResponseTimeReport.generate.
  destruct (add_rows_outcome es []) as [Hret Hfail].
  split; [|split].
  - rewrite <- Hret.
    destruct (for_each AverageResponseTimeReport.add_row [] es); reflexivity.
  - intros e H.
    destruct (for_each AverageResponseTimeReport.add_row [] es) as [rows|x] eqn:E;
      [discriminate H|].
    injection H as <-. apply (Hfail x eq_refl).
  - intros item _ Hle. unfold average_of.
    destruct (Z.ltb_spec 0 (count (snd item))); [lia | reflexivity].
Qed.

(** X11.  The average report of two mappings put one after the other is
    the rows of the first followed by the rows of the second: a row
    depends on its own entry only, and the first failure is the failure
    of the whole. *)
Theorem average_report_of_concatenation self es1 es2 :
  AverageResponseTimeReport.generate self (es1 ++ es2) =
  ('(rows1, _) <- AverageResponseTimeReport.generate self es1 ;;
   '(rows2, _) <- AverageResponseTimeReport.generate self es2 ;;
   Ok (rows1 ++ rows2, Report.title self)).
Proof.
  unfold AverageResponseTimeReport.generate.
  rewrite for_each_app.
  destruct (for_each AverageResponseTimeReport.add_row [] es1) as [rows1|x];
    cbn [bind]; [|reflexivity].
  rewrite (add_rows_shift es2 rows1).
  destruct (for_each AverageResponseTimeReport.add_row [] es2) as [rows2|x];
    cbn [bind]; reflexivity.
Qed.

(** *** The agent report on records of any kind *)

Lemma count_agent_tallyable d r :
  tallyable r = true ->
  UserAgentReport.count_agent d r =
  Ok (dd_setitem d (agent_value r)
        (match dd_find (agent_value r) d with Some n => n | None => 0 end + 1)).
Proof.
  intros Hr. unfold UserAgentReport.count_agent.
  destruct r as [| | | | | |fields]; try discriminate Hr.
  unfold tallyable in Hr.
  change (py_get (VDict fields) "http_user_agent" (VStr "Unknown"))
    with (@Ok value (agent_value (VDict fields))).
  cbn [bind]. unfold dd_getitem. rewrite Hr.
  destruct (dd_find (agent_value (VDict fields)) d) as [n|] eqn:E; cbn [bind].
  - reflexivity.
  - rewrite (dd_setitem_materialised d _ 0 _ Hr E). reflexivity.
Qed.

Lemma count_agent_untallyable d r :
  tallyable r = false -> returns (UserAgentReport.count_agent d r) = false.
Proof.
  intros Hr. unfold UserAgentReport.count_agent.
  destruct r as [| | | | | |fields]; try reflexivity.
  unfold tallyable in Hr.
  change (py_get (VDict fields) "http_user_agent" (VStr "Unknown"))
    with (@Ok value (agent_value (VDict fields))).
  cbn [bind]. unfold dd_getitem. rewrite Hr. reflexivity.
Qed.

Lemma count_agents_outcome logs :
  forall d,
    returns (for_each UserAgentReport.count_agent d logs) = forallb tallyable logs /\
    (forall d',
        for_each UserAgentReport.count_agent d logs = Ok d' ->
        total_count d' = total_count d + Z.of_nat (List.length logs)).
Proof.
  induction logs as [|r logs IH]; intros d; cbn [for_each forallb].
  - split; [reflexivity|]. intros d' [= <-]. simpl. lia.
  - destruct (tallyable r) eqn:Hr; cbn [andb].
    + rewrite (count_agent_tallyable d r Hr). cbn [bind].
      destruct (IH (dd_setitem d (agent_value r)
                      (match dd_find (agent_value r) d with
                       | Some n => n | None => 0 end + 1))) as [Hret Htot].
      split; [exact Hret|].
      intros d' H. rewrite (Htot d' H), total_count_setitem.
      cbn [List.length]. lia.
    + pose proof (count_agent_untallyable d r Hr) as Hfail.
      destruct (UserAgentReport.count_agent d r) as [d1|x]; [discriminate Hfail|].
      cbn [bind]. split; [reflexivity | discriminate].
Qed.

(** X12.  The agent report returns exactly when every record is a JSON
    object whose agent, or the default, is hashable (a string, a number,
    a boolean or null: not an array, not an object); and whenever it
    returns, its counts add up to the number of records. *)
Theorem agent_report_returns_on_tallyable_records self logs :
  returns (UserAgentReport.generate self logs) = forallb tallyable logs /\
  (forall rows title,
      UserAgentReport.generate self logs = Ok (rows, title) ->
      total_count rows = Z.of_nat (List.length logs)).
Proof.
  unfold UserAgentReport.generate.
  destruct (count_agents_outcome logs []) as [Hret Htot].
  split.
  - rewrite <- Hret.
    destruct (for_each UserAgentReport.count_agent [] logs); reflexivity.
  - intros rows title H.
    destruct (for_each UserAgentReport.count_agent [] logs) as [d|x] eqn:E;
      [|discriminate H].
    cbn [bind] in H. rewrite rows_of_items in H. injection H as <- _.
    rewrite (Htot d eq_refl). reflexivity.
Qed.

Lemma tally_agent_rows (agents : list string) (a : string) :
  tally (agent_rows agents) a = Z.of_nat (count_occ string_dec agents a).
Proof.
  unfold tally, agent_rows.
  destruct (in_dec string_dec a agents) as [Hin|Hnin].
  - rewrite find_row_in by (apply distinct_In; exact Hin). reflexivity.
  - rewrite find_row_notin by (rewrite distinct_In; exact Hnin).
    rewrite (proj1 (count_occ_not_In string_dec agents a) Hnin). reflexivity.
Qed.

(** X13.  The tallies add up over a list of records cut in two: the
    tally of an agent in the report of the whole list is the sum of its
    tallies in the reports of the two parts. *)
Theorem agent_tallies_add self logs1 logs2 :
  forallb agent_ok logs1 = true ->
  forallb agent_ok logs2 = true ->
  exists rows1 rows2 rows,
    UserAgentReport.generate self logs1 = Ok (rows1, Report.title self) /\
    UserAgentReport.generate self logs2 = Ok (rows2, Report.title self) /\
    UserAgentReport.generate self (logs1 ++ logs2) = Ok (rows, Report.title self) /\
    forall a, tally rows a = tally rows1 a + tally rows2 a.
Proof.
  intros H1 H2.
  assert (H12 : forallb agent_ok (logs1 ++ logs2) = true)
    by (rewrite forallb_app, H1, H2; reflexivity).
  apply forallb_Forall_true in H1, H2, H12.
  exists (agent_rows (map agent_of logs1)), (agent_rows (map agent_of logs2)),
    (agent_rows (map agent_of (logs1 ++ logs2))).
  repeat split; try (apply generate_agent_rows; assumption).
  intros a. rewrite !tally_agent_rows, map_app, count_occ_app. lia.
Qed.

End ReportOutcomes.

(** ** [main] as a whole *)

Section MainOutcomes.
Context {lib : Library.t}.




(** X15.  The [--date] argument is read before any file: a non-empty
    argument that is no date in the form year-month-day ends [main] with
    [ValueError] and no output, whatever the files and the report kind;
    an empty argument stands for no date at all. *)
Theorem date_argument_is_read_first fs paths kind s :
  s <> EmptyString ->
  strptime s "%Y-%m-%d" = None ->
  main fs {| files := paths; report := kind; date_arg := Some s |} =
    ([], Raise ValueError) /\
  main fs {| files := paths; report := kind; date_arg := Some EmptyString |} =
    main fs {| files := paths; report := kind; date_arg := None |}.
Proof.
  intros Hs Hbad. split; [|reflexivity].
  unfold main, report_date_of. cbn [date_arg].
  destruct (String.eqb_spec s EmptyString) as [->|_]; [contradiction Hs; reflexivity|].
  rewrite Hbad. reflexivity.
Qed.

(** X16.  The user-agent report does not depend on the date: two runs
    of [main] over the same files that ask for the user-agent report
    print the same, whatever their dates, as long as both parse the
    logs. *)
Theorem agent_report_ignores_date fs a1 a2 d1 d2 :
  files a1 = files a2 ->
  report a1 = "user-agent" ->
  report a2 = "user-agent" ->
  report_date_of a1 = Ok d1 ->
  report_date_of a2 = Ok d2 ->
  returns (parse_logs fs (files a1) d1) = true ->
  returns (parse_logs fs (files a2) d2) = true ->
  main fs a1 = main fs a2.
Proof.
  intros Hfiles Hk1 Hk2 Hd1 Hd2 Hr1 Hr2.
  destruct (returns_Ok _ Hr1) as [[es1 logs1] H1].
  destruct (returns_Ok _ Hr2) as [[es2 logs2] H2].
  assert (Hlogs : logs1 = logs2).
  { destruct (process_files_returns fs d1 (files a1) _ Hr1) as [lines Hread].
    pose proof H1 as H1'. pose proof H2 as H2'.
    rewrite (parse_logs_read_all fs d1 _ lines Hread) in H1'.
    rewrite <- Hfiles in H2'.
    rewrite (parse_logs_read_all fs d2 _ lines Hread) in H2'.
    destruct (process_lines_logs d1 lines _ _ _ _ H1') as [-> _].
    destruct (process_lines_logs d2 lines _ _ _ _ H2') as [-> _].
    reflexivity. }
  subst logs2.
  unfold main. rewrite Hd1, Hd2. cbn [lift run_bind app].
  rewrite H1, H2. cbn [lift run_bind app].
  rewrite Hk1, Hk2. reflexivity.
Qed.

End MainOutcomes.

(** ** The further properties at work *)

Lemma file_boundaries_do_not_matter_witness :
  parse_logs (lib := Sample.library) Cases.fs
    ["test_logs.json"; "more_logs.json"] (Some Scenario.june22) =
  parse_logs (lib := Sample.library) Cases.fs ["all_logs.json"]
    (Some Scenario.june22).
Proof.
  apply (file_boundaries_do_not_matter (lib := Sample.library)
           Cases.fs ["test_logs.json"; "more_logs.json"]
           Cases.fs ["all_logs.json"] Cases.all_logs (Some Scenario.june22)
           eq_refl eq_refl).
Defined.

Lemma missing_file_fails_run_witness :
  parse_logs (lib := Sample.library) Cases.fs
    ["test_logs.json"; "absent.json"; "more_logs.json"] None =
  Raise (OSError "absent.json").
Proof.
  refine (proj2 (missing_file_fails_run (lib := Sample.library) Cases.fs
                   ["test_logs.json"; "absent.json"; "more_logs.json"] None
                   1%nat "absent.json" eq_refl eq_refl) _ _).
  vm_compute; reflexivity.
Defined.

Lemma scalar_line_raises_type_error_witness :
  parse_logs (lib := Sample.library) Cases.fs ["numbers.json"]
    (Some Scenario.june22) = Raise TypeError.
Proof.
  refine (scalar_line_raises_type_error (lib := Sample.library) Cases.fs
            ["numbers.json"] (Some Scenario.june22) 0%nat "numbers.json"
            Cases.numbers 1%nat (Sample.line "42") (VInt 42)
            eq_refl eq_refl eq_refl eq_refl eq_refl _ _ _ _);
    vm_compute; reflexivity.
Defined.

Lemma unreadable_timestamp_raises_witness :
  parse_logs (lib := Sample.library) Cases.fs ["null_timestamp.json"]
    (Some Scenario.june22) = Raise TypeError.
Proof.
  refine (unreadable_timestamp_raises (lib := Sample.library) Cases.fs
            ["null_timestamp.json"] (Some Scenario.june22) 0%nat
            "null_timestamp.json" Cases.null_timestamp 1%nat
            (Sample.line
               "{'@timestamp': null, 'url': '/api/v1/resource', 'response_time': 1}")
            [("@timestamp", VNone); ("url", VStr "/api/v1/resource");
             ("response_time", VInt 1)]
            VNone TypeError
            eq_refl eq_refl eq_refl eq_refl eq_refl eq_refl _ _ _ _);
    vm_compute; reflexivity.
Defined.

Lemma filter_passes_over_bare_sequences_witness :
  parse_logs (lib := Sample.library) Cases.fs ["sequences.json"]
    (Some Scenario.june22) =
    Ok ([], [VList [VInt 1; VInt 2]; VStr "plain text"]) /\
  parse_logs (lib := Sample.library) Cases.fs ["sequences.json"] None =
    Raise AttributeError.
Proof.
  destruct (filter_passes_over_bare_sequences (lib := Sample.library) Cases.fs
              ["sequences.json"] Cases.sequences Scenario.june22
              eq_refl eq_refl) as [Hfiltered Hunfiltered].
  split; [exact Hfiltered|].
  apply Hunfiltered. discriminate.
Defined.

Lemma counts_sum_to_contributions_witness :
  stats_total Cases.filtered_stats = 3 /\
  stats_total Cases.filtered_stats <= 5.
Proof.
  apply (counts_sum_to_contributions (lib := Sample.library) Cases.fs
           ["test_logs.json"; "more_logs.json"] (Some Scenario.june22)
           Cases.filtered_stats Cases.filtered_logs eq_refl).
Defined.

Lemma keys_in_order_of_first_count_witness :
  exists es logs,
    parse_logs (lib := Sample.library) Cases.fs
      ["test_logs.json"; "more_logs.json"] None = Ok (es, logs) /\
    map fst es = [VStr "/api/v1/resource"; VStr "/api/v1/another_resource"].
Proof.
  apply (keys_in_order_of_first_count (lib := Sample.library) Cases.fs
           ["test_logs.json"; "more_logs.json"] None Cases.all_logs);
    vm_compute; reflexivity.
Defined.

Lemma filter_never_raises_a_count_witness :
  exists filtered unfiltered logs,
    parse_logs (lib := Sample.library) Cases.fs
      ["test_logs.json"; "more_logs.json"] (Some Scenario.june23) =
      Ok (filtered, logs) /\
    parse_logs (lib := Sample.library) Cases.fs
      ["test_logs.json"; "more_logs.json"] None = Ok (unfiltered, logs) /\
    forall e, count_in filtered e <= count_in unfiltered e.
Proof.
  apply (filter_never_raises_a_count (lib := Sample.library) Cases.fs
           ["test_logs.json"; "more_logs.json"] Cases.all_logs Scenario.june23);
    vm_compute; reflexivity.
Defined.

Lemma integer_totals_are_exact_witness :
  exists es logs,
    parse_logs (lib := Sample.library) Cases.fs ["test_logs.json"] None =
      Ok (es, logs) /\
    forall e s,
      dd_find (VStr e) es = Some s ->
      total_response_time s =
      NInt (int_total (lib := Sample.library) None e
              (decode_all (lib := Sample.library) Scenario.test_logs)).
Proof.
  apply (integer_totals_are_exact (lib := Sample.library) Cases.fs
           ["test_logs.json"] None Scenario.test_logs);
    vm_compute; reflexivity.
Defined.

Lemma agent_tallies_add_witness :
  exists rows1 rows2 rows,
    UserAgentReport.generate {| Report.title := "User Agent Report" |}
      (decode_all (lib := Sample.library) Scenario.test_logs) =
      Ok (rows1, "User Agent Report") /\
    UserAgentReport.generate {| Report.title := "User Agent Report" |}
      (decode_all (lib := Sample.library) Scenario.more_logs) =
      Ok (rows2, "User Agent Report") /\
    UserAgentReport.generate {| Report.title := "User Agent Report" |}
      (decode_all (lib := Sample.library) Scenario.test_logs ++
       decode_all (lib := Sample.library) Scenario.more_logs) =
      Ok (rows, "User Agent Report") /\
    forall a, tally rows a = tally rows1 a + tally rows2 a.
Proof.
  apply (agent_tallies_add {| Report.title := "User Agent Report" |}
           (decode_all (lib := Sample.library) Scenario.test_logs)
           (decode_all (lib := Sample.library) Scenario.more_logs));
    vm_compute; reflexivity.
Defined.

Lemma date_argument_is_read_first_witness :
  main (lib := Sample.library) Cases.fs
    {| files := ["absent.json"]; report := "average";
       date_arg := Some "22/06/2025" |} =
  ([], Raise ValueError).
Proof.
  apply (proj1 (date_argument_is_read_first (lib := Sample.library) Cases.fs
                  ["absent.json"] "average" "22/06/2025"
                  ltac:(discriminate) eq_refl)).
Defined.

Lemma agent_report_ignores_date_witness :
  main (lib := Sample.library) Cases.fs
    {| files := ["test_logs.json"; "more_logs.json"]; report := "user-agent";
       date_arg := None |} =
  main (lib := Sample.library) Cases.fs
    {| files := ["test_logs.json"; "more_logs.json"]; report := "user-agent";
       date_arg := Some "2025-06-22" |}.
Proof.
  apply (agent_report_ignores_date (lib := Sample.library) Cases.fs
           {| files := ["test_logs.json"; "more_logs.json"];
              report := "user-agent"; date_arg := None |}
           {| files := ["test_logs.json"; "more_logs.json"];
              report := "user-agent"; date_arg := Some "2025-06-22" |}
           None (Some Scenario.june22)
           eq_refl eq_refl eq_refl eq_refl eq_refl);
    vm_compute; reflexivity.
Defined.
